(** * AI fashion consultant: outfit decision engine and ingestion retry

    A shallow embedding of the decision logic of the repository:

    - [tools/color_matcher.py]      (module [ColorMatcher])
    - [tools/gender_style_rules.py] (module [GenderStyleRules])
    - [tools/image_tagger.py] and [agents/perception_agent.py]
                                    (modules [ImageTagger], [PerceptionAgent])
    - [agents/planner_agent.py]     (module [PlannerAgent])

    Python dictionaries keyed by strings are finite maps, Python sets are
    finite sets, floats that only carry fixed scores or a ratio of two
    small integers are rationals.  The remote services, the JSON decoder
    and the random generator are oracles supplied by the environment. *)

From Stdlib Require Import ZArith QArith String Ascii List Bool Lia.
From stdpp Require Import base option list gmap strings.

Local Open Scope string_scope.

(** ** Python string primitives *)

Module PyStr.

(** [str.lower] on the ASCII range; other code points are unchanged. *)
Definition lower_ascii (c : ascii) : ascii :=
  let n := nat_of_ascii c in
  if andb (65 <=? n)%nat (n <=? 90)%nat then ascii_of_nat (n + 32) else c.

Fixpoint lower (s : string) : string :=
  match s with
  | EmptyString => EmptyString
  | String c r => String (lower_ascii c) (lower r)
  end.

(** [needle in hay] for two strings. *)
Fixpoint py_in (needle hay : string) : bool :=
  if String.prefix needle hay then true
  else match hay with
       | EmptyString => false
       | String _ r => py_in needle r
       end.

(** Characters on which [str.split()] splits and that [\s] matches. *)
Definition is_space (c : ascii) : bool :=
  let n := nat_of_ascii c in
  orb (andb (9 <=? n)%nat (n <=? 13)%nat)
      (orb (andb (28 <=? n)%nat (n <=? 31)%nat) (n =? 32)%nat).

Definition is_digit (c : ascii) : bool :=
  let n := nat_of_ascii c in andb (48 <=? n)%nat (n <=? 57)%nat.

(** [s.split()]: maximal runs of non-space characters.  [cur] is the
    token being read, in reverse. *)
Definition flush (cur : list ascii) (acc : list string) : list string :=
  match cur with
  | [] => acc
  | _ => string_of_list_ascii (rev cur) :: acc
  end.

Fixpoint split_go (s : string) (cur : list ascii) : list string :=
  match s with
  | EmptyString => flush cur []
  | String c r =>
      if is_space c then flush cur (split_go r [])
      else split_go r (c :: cur)
  end.

Definition split (s : string) : list string := split_go s [].

(** Truth value of a string. *)
Definition truthy (s : string) : bool :=
  match s with EmptyString => false | _ => true end.

(** [s.strip()] *)
Fixpoint lstrip (s : string) : string :=
  match s with
  | EmptyString => EmptyString
  | String c r => if is_space c then lstrip r else s
  end.

Fixpoint rstrip (s : string) : string :=
  match s with
  | EmptyString => EmptyString
  | String c r =>
      match rstrip r with
      | EmptyString => if is_space c then EmptyString else String c EmptyString
      | r' => String c r'
      end
  end.

Definition strip (s : string) : string := rstrip (lstrip s).

(** [s.find(c)] and [s.rfind(c)] for one character; [None] is [-1]. *)
Fixpoint find (c : ascii) (s : string) : option nat :=
  match s with
  | EmptyString => None
  | String a r =>
      if Ascii.eqb a c then Some 0%nat else option_map S (find c r)
  end.

Fixpoint rfind (c : ascii) (s : string) : option nat :=
  match s with
  | EmptyString => None
  | String a r =>
      match rfind c r with
      | Some i => Some (S i)
      | None => if Ascii.eqb a c then Some 0%nat else None
      end
  end.

(** [s[a:b]] for indices within the string. *)
Definition slice (s : string) (a b : nat) : string :=
  String.substring a (b - a) s.

(** [s[n:]] *)
Fixpoint drop (n : nat) (s : string) : string :=
  match n, s with
  | S m, String _ r => drop m r
  | _, _ => s
  end.

End PyStr.

(** ** Python values

    A wardrobe record is a dictionary; the engine reads its [id],
    [garment_type] and [color].  A key that is absent and a key bound to
    the empty string are read alike everywhere below ([.get(k)] is tested
    for membership in a vocabulary or for truth, [.get(k, '')] is
    lowercased), so both are the empty string here. *)

Record Item := mkItem {
  id : Z;
  garment_type : string;
  color : string
}.

#[global] Instance Item_eq_dec : EqDecision Item.
Proof. solve_decision. Defined.

(** The values stored in outfit and tag dictionaries. *)
Inductive PyVal :=
| VNone
| VStr (s : string)
| VList (l : list string)
| VItem (i : Item).

#[global] Instance PyVal_eq_dec : EqDecision PyVal.
Proof. solve_decision. Defined.

(** Truth value of an object: [None], [''] and [[]] are false, a wardrobe
    record (a dictionary with keys) is true. *)
Definition truthy (v : PyVal) : bool :=
  match v with
  | VNone => false
  | VStr s => PyStr.truthy s
  | VList l => match l with [] => false | _ => true end
  | VItem _ => true
  end.

(** [bool(d.get(k))] *)
Definition get_truthy (d : gmap string PyVal) (k : string) : bool :=
  match d !! k with
  | Some v => truthy v
  | None => false
  end.

(** [x in vocabulary] for a list of string literals. *)
Definition in_vocab (x : string) (vocabulary : list string) : bool :=
  existsb (String.eqb x) vocabulary.

(** ** config/settings.py *)

Module Settings.

Definition MAX_RETRIES : nat := 3.

Definition COLOR_COMPLEMENTARY : gmap string (list string) :=
  list_to_map
    [ ("blue",   ["orange"; "yellow"; "white"; "beige"]);
      ("red",    ["green"; "white"; "black"; "navy"]);
      ("green",  ["red"; "brown"; "beige"; "white"]);
      ("yellow", ["purple"; "blue"; "gray"; "white"]);
      ("purple", ["yellow"; "green"; "white"; "gold"]);
      ("orange", ["blue"; "teal"; "white"; "brown"]);
      ("pink",   ["gray"; "white"; "navy"; "green"]);
      ("brown",  ["cream"; "beige"; "white"; "blue"]);
      ("black",  ["white"; "red"; "gold"; "pink"]);
      ("white",  ["any"]);
      ("gray",   ["any"]) ].

End Settings.

(** ** tools/color_matcher.py *)

Module ColorMatcher.

(** Which [return] of [validate_combination] produced the result; it
    stands for the [reasoning] text. *)
Inductive Reasoning :=
| SingleOrNone | ContainsNeutral | WorksWithAny
| ComplementsWell | MayClash | NotInDatabase.

Record Validation := mkValidation {
  valid : bool;
  score : Q;
  reasoning : Reasoning
}.

Definition neutrals : gset string :=
  {[ "white"; "black"; "gray"; "grey"; "beige"; "cream"; "navy"; "brown" ]}.

Definition is_neutral (c : string) : bool := bool_decide (c ∈ neutrals).

(** [any(comp in c for comp in complements)] *)
Definition complemented (complements : list string) (c : string) : bool :=
  existsb (fun comp => PyStr.py_in comp c) complements.

(** [sum(1 for c in secondary if ...)] *)
Definition matching (complements secondary : list string) : nat :=
  length (List.filter (complemented complements) secondary).

Definition ratio (m n : nat) : Q := Z.of_nat m # Pos.of_nat n.

Definition validate_combination (colors : list string) : Validation :=
  if (length colors <? 2)%nat then mkValidation true 1 SingleOrNone
  else
    let colors := map PyStr.lower colors in
    if existsb is_neutral colors then
      mkValidation true (95 # 100) ContainsNeutral
    else
      match colors with
      | [] => mkValidation true 1 SingleOrNone (* not reached: two colors at least *)
      | primary :: secondary =>
          match Settings.COLOR_COMPLEMENTARY !! primary with
          | Some complements =>
              if existsb (String.eqb "any") complements then
                mkValidation true 1 WorksWithAny
              else
                let m := matching complements secondary in
                let sc := match secondary with
                          | [] => 1%Q
                          | _ => ratio m (length secondary)
                          end in
                if Qle_bool (1 # 2) sc
                then mkValidation true sc ComplementsWell
                else mkValidation false sc MayClash
          | None => mkValidation true (7 # 10) NotInDatabase
          end
      end.

Record Analysis := mkAnalysis {
  colors_used : list string;
  validation : Validation;
  color_count : nat;
  has_neutral : bool;
  suggestion : option string
}.

Definition analyze_outfit_colors (outfit_items : list Item) : Analysis :=
  let colors := List.filter PyStr.truthy (map color outfit_items) in
  let validation := validate_combination colors in
  mkAnalysis colors validation (length colors)
    (existsb (fun c => in_vocab (PyStr.lower c)
                         ["white"; "black"; "gray"; "beige"]) colors)
    (if valid validation then None
     else Some "Consider adding a neutral piece (white, black, or gray) to balance the outfit").

End ColorMatcher.

(** ** tools/gender_style_rules.py *)

Module GenderStyleRules.

Record Rule := mkRule {
  required_categories : list string;
  accessory_limits : nat
}.

Definition rules : gmap string Rule :=
  list_to_map
    [ ("male",   mkRule ["top"; "bottom"; "shoes"] 3);
      ("female", mkRule ["top_or_dress"; "bottom_optional"; "shoes"] 5);
      ("unisex", mkRule ["top"; "bottom"; "shoes"] 4) ].

Definition unisex_rule : Rule := mkRule ["top"; "bottom"; "shoes"] 4.

(** [gender.lower()], replaced by ['unisex'] when it is not a profile. *)
Definition rule_of (gender : string) : Rule :=
  match rules !! PyStr.lower gender with
  | Some r => r
  | None => unisex_rule
  end.

Inductive Issue :=
| TooManyAccessories (n limit : nat)
| MissingRequired (missing : list string).

Record Result := mkResult {
  valid : bool;
  score : Q;
  issues : list Issue;
  missing : list string
}.

(** One turn of [for category in required]: what it appends. *)
Definition missing_for (outfit : gmap string PyVal) (category : string)
  : list string :=
  if String.eqb category "top_or_dress" then
    if orb (get_truthy outfit "top") (get_truthy outfit "dress")
    then [] else ["top or dress"]
  else if String.eqb category "bottom_optional" then
    if andb (negb (get_truthy outfit "dress"))
            (negb (get_truthy outfit "bottom"))
    then ["bottom (unless wearing dress)"] else []
  else
    if get_truthy outfit category then [] else [category].

Section Validator.

(** [len] of a wardrobe record: the number of its keys, which the records
    of this development do not keep. *)
Variable record_len : Item -> nat.

(** [len(outfit.get('accessories', []))]; [None] is the [TypeError] of
    [len(None)]. *)
Definition accessories_len (outfit : gmap string PyVal) : option nat :=
  match outfit !! "accessories" with
  | None => Some 0%nat
  | Some (VList l) => Some (length l)
  | Some (VStr s) => Some (String.length s)
  | Some (VItem i) => Some (record_len i)
  | Some VNone => None
  end.

(** [validate_outfit]; the result is [None] when [len] raises. *)
Definition validate_outfit (outfit : gmap string PyVal) (gender : string)
  : option Result :=
  let r := rule_of gender in
  let missing := flat_map (missing_for outfit) (required_categories r) in
  match accessories_len outfit with
  | None => None
  | Some n =>
      if (accessory_limits r <? n)%nat then
        Some (mkResult false (6 # 10)
                [TooManyAccessories n (accessory_limits r)] missing)
      else
        match missing with
        | _ :: _ =>
            Some (mkResult false (3 # 10) [MissingRequired missing] missing)
        | [] => Some (mkResult true 1 [] [])
        end
  end.

End Validator.

End GenderStyleRules.

(** ** tools/image_tagger.py *)

Module ImageTagger.

(** What one pass through the [try] block comes to: the image could not
    be opened, the service raised, the answer did not decode to a
    dictionary ([Raises], with [str(e)]), or it decoded to [tags]. *)
Inductive Attempt :=
| Raises (error : string)
| Parsed (tags : gmap string PyVal).

(** The tagging service: answer to a given image at a given attempt. *)
Definition Vision := string -> nat -> Attempt.

Definition _fallback_tags (image_path error : string) : gmap string PyVal :=
  list_to_map
    [ ("garment_type", VStr "unknown");
      ("gender_category", VStr "unisex");
      ("color", VStr "unknown");
      ("secondary_colors", VList []);
      ("pattern", VStr "unknown");
      ("formality", VStr "casual");
      ("season", VList ["spring"; "summer"; "fall"; "winter"]);
      ("material", VStr "unknown");
      ("style_tags", VList []);
      ("brand", VNone);
      ("condition", VStr "good");
      ("image_path", VStr image_path);
      ("tagged_by", VStr "fallback");
      ("error", VStr error) ].

(** The observable run of [tag_garment]: what it returns ([None] when
    the loop ends without a [return]), how many calls it made, and the
    durations it slept, in order. *)
Record Run := mkRun {
  returned : option (gmap string PyVal);
  attempts : nat;
  slept : list nat
}.

(** [for attempt in range(MAX_RETRIES)], as a recursion on the attempts
    that remain. *)
Fixpoint tag_attempts (vision : Vision) (image_path : string)
    (range : list nat) (made : nat) (naps : list nat) : Run :=
  match range with
  | [] => mkRun None made naps
  | attempt :: rest =>
      match vision image_path attempt with
      | Parsed tags =>
          let tags := <["image_path" := VStr image_path]> tags in
          let tags := <["tagged_by" := VStr "gemini-vision"]> tags in
          mkRun (Some tags) (S made) naps
      | Raises error =>
          if (attempt =? Settings.MAX_RETRIES - 1)%nat then
            mkRun (Some (_fallback_tags image_path error)) (S made) naps
          else
            tag_attempts vision image_path rest (S made)
                         (naps ++ [2 ^ (attempt + 1)]%nat)%list
      end
  end.

Definition tag_garment (vision : Vision) (image_path : string) : Run :=
  tag_attempts vision image_path (seq 0 Settings.MAX_RETRIES) 0 [].

End ImageTagger.

(** ** agents/perception_agent.py *)

Module PerceptionAgent.

Definition required_fields : list string :=
  ["garment_type"; "color"; "formality"; "season"].

Record Result := mkResult {
  valid : bool;
  missing_fields : list string
}.

Definition validate_garment_data (tags : gmap string PyVal) : Result :=
  let missing :=
    List.filter (fun field => negb (get_truthy tags field)) required_fields in
  match missing with
  | _ :: _ => mkResult false missing
  | [] => mkResult true []
  end.

End PerceptionAgent.

(** ** agents/planner_agent.py *)

Module PlannerAgent.

(** *** The world the planner runs in *)

Record Weather := mkWeather {
  temperature : Z;
  description : string;
  condition : string
}.

(** The [context] dictionary; an absent key is [None]. *)
Record Context := mkContext {
  wardrobe_items : list Item;
  worn_today : list (gmap string PyVal);
  weather : option Weather;
  gender : option string;
  occasion : option string;
  city : option string
}.

(** What the composed prompt contains beyond its fixed text: the
    mandatory anchor and whether the worn-today restriction is there. *)
Record Prompt := mkPrompt {
  prompt_anchor : option Item;
  prompt_restriction : bool
}.

Inductive Exn :=
| IndexError
| AttributeError
| ValueError
| ServiceError (msg : string).

(** The object returned by the model; reading [.text] may raise. *)
Record Response := mkResponse { text : Exn + string }.

Inductive ApiOutcome :=
| ApiRaises (msg : string)
| ApiReturns (response : option Response).

(** A value of the decoded outfit mapping: null, a text, or a list of
    texts (the accessories), which comes with its [str()]. *)
Inductive Decoded :=
| JNull
| JText (s : string)
| JList (l : list string) (rendered : string).

(** [bool(description)] *)
Definition decoded_truth (d : Decoded) : bool :=
  match d with
  | JNull => false
  | JText s => PyStr.truthy s
  | JList l _ => match l with [] => false | _ => true end
  end.

(** [str(description)] *)
Definition decoded_str (d : Decoded) : string :=
  match d with
  | JNull => "None"
  | JText s => s
  | JList _ rendered => rendered
  end.

(** The description itself, as a value of the resolved outfit. *)
Definition decoded_value (d : Decoded) : PyVal :=
  match d with
  | JNull => VNone
  | JText s => VStr s
  | JList l _ => VList l
  end.

(** The [outfit] entry of the decoded object: absent or false ([None],
    an empty text), a mapping from category to description, or some other
    true value. *)
Inductive OutfitField :=
| FieldFalsy
| FieldMapping (m : gmap string Decoded)
| FieldOther.

Record OutfitData := mkOutfitData {
  od_outfit : OutfitField;
  od_reasoning : option string;
  od_confidence : option Q
}.

(** The collaborators: the weather lookup (it catches its own errors),
    the generation service, asked with a prompt for the n-th time, and
    [json.loads] ([None] is [JSONDecodeError]). *)
Record Env := mkEnv {
  get_weather : string -> Weather;
  generate_content : Prompt -> nat -> ApiOutcome;
  json_loads : string -> option OutfitData
}.

(** The state threaded through a request: the random generator, as a
    tape and a read position, and the number of calls made to the
    generation service. *)
Record World := mkWorld {
  tape : nat -> nat;
  pos : nat;
  api_calls : nat
}.

(** Computations that read and advance the world and may raise. *)
Definition M (A : Type) : Type := World -> (Exn + A) * World.

#[export] Instance M_ret : MRet M := fun A a w => (inr a, w).

#[export] Instance M_bind : MBind M := fun A B f m w =>
  match m w with
  | (inl e, w') => (inl e, w')
  | (inr a, w') => f a w'
  end.

Definition raise {A : Type} (e : Exn) : M A := fun w => (inl e, w).

(** [try: body except Exception as e: handler] *)
Definition try_except {A : Type} (body : M A) (handler : Exn -> M A) : M A :=
  fun w =>
    match body w with
    | (inl e, w') => handler e w'
    | (inr a, w') => (inr a, w')
    end.

Definition draw : M nat := fun w =>
  (inr (tape w (pos w)), mkWorld (tape w) (S (pos w)) (api_calls w)).

(** [random.choice(l)]; an empty sequence raises. *)
Definition random_choice {A : Type} (l : list A) : M A :=
  match l with
  | [] => raise IndexError
  | _ =>
      n ← draw;
      match l !! (n mod length l)%nat with
      | Some x => mret x
      | None => raise IndexError
      end
  end.

(** [random.random()], in hundredths. *)
Definition random_random : M Q :=
  n ← draw; mret (Z.of_nat (n mod 100) # 100).

(** [x > y] on scores *)
Definition Qgt_bool (x y : Q) : bool := negb (Qle_bool x y).

(** [self.model.generate_content(prompt)], seen from the caller. *)
Definition api_call (env : Env) (prompt : Prompt) : M ApiOutcome := fun w =>
  (inr (generate_content env prompt (api_calls w)),
   mkWorld (tape w) (pos w) (S (api_calls w))).

(** A [for] loop whose body may [break]. *)
Inductive Ctl (S : Type) :=
| Break (s : S)
| Continue (s : S).
Arguments Break {S} s.
Arguments Continue {S} s.

Fixpoint for_range {S : Type} (range : list nat)
    (body : nat -> S -> M (Ctl S)) (s : S) : M S :=
  match range with
  | [] => mret s
  | i :: rest =>
      c ← body i s;
      match c with
      | Break s' => mret s'
      | Continue s' => for_range rest body s'
      end
  end.

(** *** Constraint filter and anchor selection *)

Definition worn_parts : list string := ["top"; "bottom"; "shoes"; "dress"].

(** One turn of [for part in ...]: a record with a true [id] is added. *)
Definition add_part (worn : gmap string PyVal) (ids : gset Z) (part : string)
  : gset Z :=
  match worn !! part with
  | Some (VItem item) =>
      if Z.eqb (id item) 0 then ids else ids ∪ {[ id item ]}
  | _ => ids
  end.

Definition worn_ids (worn_today : list (gmap string PyVal)) : gset Z :=
  foldl (fun ids worn => foldl (add_part worn) ids worn_parts) ∅ worn_today.

Definition valid_items (context : Context) : list Item :=
  List.filter (fun i => negb (bool_decide (id i ∈ worn_ids (worn_today context))))
              (wardrobe_items context).

(** The anchor and the [allow_repeats] flag. *)
Definition select_anchor (context : Context) : M (option Item * bool) :=
  match wardrobe_items context with
  | [] => mret (None, false)
  | _ :: _ =>
      match valid_items context with
      | _ :: _ =>
          a ← random_choice (valid_items context); mret (Some a, false)
      | [] =>
          a ← random_choice (wardrobe_items context); mret (Some a, true)
      end
  end.

Definition compose_prompt (context : Context) (anchor_item : option Item)
    (allow_repeats : bool) : Prompt :=
  mkPrompt anchor_item
    (andb (negb allow_repeats)
          (match worn_today context with [] => false | _ => true end)).

(** *** Generation client *)

(** Body of [for attempt in range(2)]: every path ends in [break]. *)
Definition attempt_body (env : Env) (prompt : Prompt) (attempt : nat)
    (response : option Response) : M (Ctl (option Response)) :=
  outcome ← api_call env prompt;
  match outcome with
  | ApiReturns r => mret (Break r)
  | ApiRaises e =>
      let error_str := PyStr.lower e in
      if orb (PyStr.py_in "429" error_str) (PyStr.py_in "quota" error_str)
      then mret (Break response)
      else mret (Break response)
  end.

Definition call_model (env : Env) (prompt : Prompt) : M (option Response) :=
  for_range (seq 0 2) (attempt_body env prompt) None.

(** *** Response parser *)

Definition unparsed (response_text : string) : OutfitData :=
  mkOutfitData (FieldMapping ∅) (Some response_text) (Some 0%Q).

Definition _parse_outfit_response (env : Env) (response_text : string)
  : OutfitData :=
  let text := PyStr.strip response_text in
  match PyStr.find "{" text, PyStr.rfind "}" text with
  | Some start_idx, Some end_idx =>
      match json_loads env (PyStr.slice text start_idx (end_idx + 1)) with
      | Some data => data
      | None => unparsed response_text
      end
  | _, _ => unparsed response_text
  end.

(** [bool(outfit_data.get('outfit'))] *)
Definition field_truthy (f : OutfitField) : bool :=
  match f with
  | FieldFalsy => false
  | FieldMapping m => negb (bool_decide (m = ∅))
  | FieldOther => true
  end.

(** *** Item resolver *)

(** The tail [\s*#?\s*(\d+)] of the id pattern, matched at the start of
    [s]: the digits of its group.  White space, [#] and digits are
    disjoint classes, so the greedy reading is the only one. *)
Fixpoint take_digits (s : string) : string :=
  match s with
  | EmptyString => EmptyString
  | String c r =>
      if PyStr.is_digit c then String c (take_digits r) else EmptyString
  end.

Definition skip_hash (s : string) : string :=
  match s with
  | String c r => if Ascii.eqb c "#" then r else s
  | EmptyString => s
  end.

Definition match_number (s : string) : option string :=
  match take_digits (PyStr.lstrip (skip_hash (PyStr.lstrip s))) with
  | EmptyString => None
  | digits => Some digits
  end.

(** The whole pattern [(?:item|id)\s*#?\s*(\d+)] at the start of [s]. *)
Definition match_here (s : string) : option string :=
  if String.prefix "item" s then match_number (PyStr.drop 4 s)
  else if String.prefix "id" s then match_number (PyStr.drop 2 s)
  else None.

(** [re.search(...).group(1)]: the group at the leftmost position where
    the pattern matches. *)
Fixpoint search_id (s : string) : option string :=
  match match_here s with
  | Some digits => Some digits
  | None =>
      match s with
      | EmptyString => None
      | String _ r => search_id r
      end
  end.

Definition digit_value (c : ascii) : Z := (Z.of_nat (nat_of_ascii c) - 48)%Z.

Fixpoint int_of_digits (acc : Z) (digits : string) : Z :=
  match digits with
  | EmptyString => acc
  | String c r => int_of_digits (10 * acc + digit_value c)%Z r
  end.

(** The interpreter's limit on the digits of a decimal text. *)
Definition INT_MAX_STR_DIGITS : nat := 4300.

(** [int(digits)] for a run of digits: beyond the limit it raises. *)
Definition py_int (digits : string) : Exn + Z :=
  if (INT_MAX_STR_DIGITS <? String.length digits)%nat then inl ValueError
  else inr (int_of_digits 0 digits).

(** First record with the given id. *)
Definition find_by_id (target_id : Z) (wardrobe : list Item) : option Item :=
  List.find (fun item => Z.eqb (id item) target_id) wardrobe.

Definition exact_id_match (desc_lower : string) (wardrobe : list Item)
  : Exn + option Item :=
  match search_id desc_lower with
  | Some digits =>
      match py_int digits with
      | inl e => inl e
      | inr target_id => inr (find_by_id target_id wardrobe)
      end
  | None => inr None
  end.

(** [type_match and color_match] for one record. *)
Definition heuristic_match (desc_lower : string) (item : Item) : bool :=
  let c_tokens := PyStr.split (PyStr.lower (color item)) in
  let t := PyStr.lower (garment_type item) in
  let type_match := PyStr.py_in t desc_lower in
  let color_match :=
    match c_tokens with
    | [] => true
    | _ => existsb (fun token => PyStr.py_in token desc_lower) c_tokens
    end in
  andb type_match color_match.

(** The body of the loop for one true description. *)
Definition resolve_description (description : Decoded) (wardrobe : list Item)
  : Exn + PyVal :=
  let desc_lower := PyStr.lower (decoded_str description) in
  match exact_id_match desc_lower wardrobe with
  | inl e => inl e
  | inr found =>
      let found :=
        match found with
        | Some item => Some item
        | None => List.find (heuristic_match desc_lower) wardrobe
        end in
      inr (match found with
           | Some item => VItem item
           | None => decoded_value description
           end)
  end.

(** One turn of the loop: a false description is skipped ([continue]). *)
Definition resolve_entry (wardrobe : list Item) (description : Decoded)
  : Exn + option PyVal :=
  if decoded_truth description then
    match resolve_description description wardrobe with
    | inl e => inl e
    | inr v => inr (Some v)
    end
  else inr None.

Definition turn_raises {A : Type} (r : Exn + A) : bool :=
  match r with inl _ => true | inr _ => false end.

Definition turn_value {A : Type} (r : Exn + option A) : option A :=
  match r with inl _ => None | inr o => o end.

(** The loop raises when a turn does, and [int] raises nothing but
    [ValueError]; otherwise every category is resolved on its own. *)
Definition _resolve_item_images (outfit_dict : gmap string Decoded)
    (wardrobe : list Item) : Exn + gmap string PyVal :=
  if existsb (fun entry => turn_raises (resolve_entry wardrobe (snd entry)))
             (map_to_list outfit_dict)
  then inl ValueError
  else inr (omap (fun d => turn_value (resolve_entry wardrobe d)) outfit_dict).

(** *** Procedural fallback assembler *)

Definition tops_vocab : list string :=
  ["top"; "shirt"; "t-shirt"; "blouse"; "sweater"].
Definition bottoms_vocab : list string :=
  ["bottom"; "pants"; "jeans"; "skirt"; "shorts"].
Definition shoes_vocab : list string :=
  ["shoes"; "sneakers"; "boots"; "heels"].
Definition dresses_vocab : list string := ["dress"; "gown"; "jumpsuit"].
Definition outerwear_vocab : list string :=
  ["outerwear"; "jacket"; "coat"; "blazer"].

(** The vocabulary the anchor is tested against for the shoes slot. *)
Definition anchor_shoes_vocab : list string := ["shoes"; "sneakers"; "boots"].

Definition bucket (vocabulary : list string) (wardrobe : list Item) : list Item :=
  List.filter (fun i => in_vocab (garment_type i) vocabulary) wardrobe.

Inductive ColorField :=
| ManualFallback
| Analysed (a : ColorMatcher.Analysis).

Record Validation := mkValidation {
  valid : bool;
  score : Q;
  issues : list string
}.

(** The dictionary returned to the caller; an absent key is [None]. *)
Record Outcome := mkOutcome {
  success : bool;
  agent : option string;
  outfit : gmap string PyVal;
  reasoning : option string;
  confidence_score : option Q;
  validation : option Validation;
  color_analysis : option ColorField;
  result_weather : option Weather;
  message : string
}.

Definition no_wardrobe : Outcome :=
  mkOutcome false None ∅ None None None None None
            "No wardrobe items available".

(** The fixed disclaimer (its leading warning sign is left out). *)
Definition fallback_reasoning : string :=
  "AI Services are currently busy. This outfit was automatically assembled from your wardrobe based on color compatibility rules.".

Definition place_anchor (anchor_item : option Item) (outfit : gmap string PyVal)
  : gmap string PyVal :=
  match anchor_item with
  | Some a =>
      let gtype := garment_type a in
      if in_vocab gtype dresses_vocab then
        <["bottom" := VNone]> (<["top" := VItem a]> outfit)
      else if in_vocab gtype tops_vocab then <["top" := VItem a]> outfit
      else if in_vocab gtype bottoms_vocab then <["bottom" := VItem a]> outfit
      else if in_vocab gtype anchor_shoes_vocab then <["shoes" := VItem a]> outfit
      else outfit
  | None => outfit
  end.

(** [outfit[slot] = random.choice(candidates)] when there are candidates. *)
Definition fill_if_any (slot : string) (candidates : list Item)
    (outfit : gmap string PyVal) : M (gmap string PyVal) :=
  match candidates with
  | [] => mret outfit
  | _ => x ← random_choice candidates; mret (<[slot := VItem x]> outfit)
  end.

(** [candidates and random.random() > threshold]: the generator is read
    only when there are candidates. *)
Definition roll_if_any (candidates : list Item) (threshold : Q) : M bool :=
  match candidates with
  | [] => mret false
  | _ => r ← random_random; mret (Qgt_bool r threshold)
  end.

Definition fill_top_bottom (tops bottoms dresses : list Item)
    (outfit : gmap string PyVal) : M (gmap string PyVal) :=
  if andb (negb (get_truthy outfit "top")) (negb (get_truthy outfit "bottom"))
  then
    wear_dress ← roll_if_any dresses (7 # 10);
    if wear_dress : bool then
      d ← random_choice dresses; mret (<["top" := VItem d]> outfit)
    else
      outfit ← fill_if_any "top" tops outfit;
      fill_if_any "bottom" bottoms outfit
  else mret outfit.

Definition fill_bottom (bottoms : list Item) (outfit : gmap string PyVal)
  : M (gmap string PyVal) :=
  if andb (get_truthy outfit "top") (negb (get_truthy outfit "bottom")) then
    match outfit !! "top" with
    | Some (VItem t) =>
        let is_dress := in_vocab (garment_type t) dresses_vocab in
        if is_dress then mret outfit else fill_if_any "bottom" bottoms outfit
    | _ => raise AttributeError
    end
  else mret outfit.

Definition fill_top (tops : list Item) (outfit : gmap string PyVal)
  : M (gmap string PyVal) :=
  if andb (get_truthy outfit "bottom") (negb (get_truthy outfit "top"))
  then fill_if_any "top" tops outfit
  else mret outfit.

Definition fill_shoes (shoes : list Item) (outfit : gmap string PyVal)
  : M (gmap string PyVal) :=
  if negb (get_truthy outfit "shoes") then fill_if_any "shoes" shoes outfit
  else mret outfit.

Definition add_outerwear (outerwear : list Item) (outfit : gmap string PyVal)
  : M (gmap string PyVal) :=
  layer ← roll_if_any outerwear (6 # 10);
  if layer : bool then
    o ← random_choice outerwear; mret (<["outerwear" := VItem o]> outfit)
  else mret outfit.

Definition default_weather : Weather := mkWeather 72 "Fair" "Clear".

Definition _generate_fallback_outfit (context : Context)
    (anchor_item : option Item) : M Outcome :=
  let wardrobe := wardrobe_items context in
  match wardrobe with
  | [] => mret no_wardrobe
  | _ :: _ =>
      let weather :=
        match weather context with
        | Some w => w
        | None => default_weather
        end in
      let tops := bucket tops_vocab wardrobe in
      let bottoms := bucket bottoms_vocab wardrobe in
      let shoes := bucket shoes_vocab wardrobe in
      let dresses := bucket dresses_vocab wardrobe in
      let outerwear := bucket outerwear_vocab wardrobe in
      let outfit := place_anchor anchor_item ∅ in
      outfit ← fill_top_bottom tops bottoms dresses outfit;
      outfit ← fill_bottom bottoms outfit;
      outfit ← fill_top tops outfit;
      outfit ← fill_shoes shoes outfit;
      outfit ← add_outerwear outerwear outfit;
      mret (mkOutcome true (Some "PlannerAgent") outfit
              (Some fallback_reasoning) (Some (5 # 10)) None
              (Some ManualFallback) (Some weather)
              "Outfit generated (Fallback Mode)")
  end.

(** *** Validation stage of the planner *)

Definition _validate_outfit (outfit_data : OutfitData) (wardrobe : list Item)
    (gender : string) : Validation :=
  mkValidation true (8 # 10) [].

Definition _get_outfit_items (outfit_data : OutfitData) (wardrobe : list Item)
  : list Item :=
  take 3 wardrobe.

(** *** The entry point *)

Definition with_weather (context : Context) (w : Weather) : Context :=
  mkContext (wardrobe_items context) (worn_today context) (Some w)
            (gender context) (occasion context) (city context).

(** The statements of the [try] block after the weather is known. *)
Definition generate_body (env : Env) (context : Context) (w : Weather)
  : M Outcome :=
  let gender := default "unisex" (gender context) in
  let wardrobe := wardrobe_items context in
  '(anchor_item, allow_repeats) ← select_anchor context;
  let prompt := compose_prompt context anchor_item allow_repeats in
  response ← call_model env prompt;
  match response with
  | None => _generate_fallback_outfit context anchor_item
  | Some response =>
      match text response with
      | inl e => raise e
      | inr response_text =>
          let outfit_data := _parse_outfit_response env response_text in
          if negb (field_truthy (od_outfit outfit_data)) then
            _generate_fallback_outfit context anchor_item
          else
            match od_outfit outfit_data with
            | FieldMapping m =>
                match _resolve_item_images m wardrobe with
                | inl e => raise e
                | inr resolved_outfit =>
                    let validation :=
                      _validate_outfit outfit_data wardrobe gender in
                    let outfit_items := _get_outfit_items outfit_data wardrobe in
                    let color_analysis :=
                      ColorMatcher.analyze_outfit_colors outfit_items in
                    mret (mkOutcome true (Some "PlannerAgent") resolved_outfit
                            (Some (default "" (od_reasoning outfit_data)))
                            (Some (default (8 # 10) (od_confidence outfit_data)))
                            (Some validation) (Some (Analysed color_analysis))
                            (Some w) "Outfit generated successfully")
                end
            | _ => raise AttributeError
            end
      end
  end.

Definition generate_outfit (env : Env) (context : Context) : M Outcome :=
  let w :=
    match weather context with
    | Some w => w
    | None => get_weather env (default "New York" (city context))
    end in
  let context := with_weather context w in
  try_except (generate_body env context w)
             (fun e => _generate_fallback_outfit context None).

End PlannerAgent.

(** ** The specification's wording, where it is compared with the code *)

Module SpecWords.

(** Following the spec's words: a secondary color "appears as a substring
    of a listed complement". *)
Definition appears_in_complement (complements : list string) (c : string)
  : bool :=
  existsb (fun comp => PyStr.py_in c comp) complements.

(** Following the spec's words: "at least half of the secondary colors"
    do so. *)
Definition half_appear (complements secondary : list string) : bool :=
  (length secondary
   <=? 2 * length (List.filter (appears_in_complement complements) secondary))%nat.

(** Following the spec's words: "the id of every item referenced in any
    category of any worn-today outfit". *)
Definition ids_of_outfit (worn : gmap string PyVal) : list Z :=
  omap (fun kv => match snd kv with VItem i => Some (id i) | _ => None end)
       (map_to_list worn).

Definition referenced_ids (worn_today : list (gmap string PyVal)) : gset Z :=
  list_to_set (concat (map ids_of_outfit worn_today)).

(** Following the spec's words: "inventory items whose id is not in that
    set". *)
Definition eligible (wardrobe : list Item)
    (worn_today : list (gmap string PyVal)) : list Item :=
  List.filter (fun i => negb (bool_decide (id i ∈ referenced_ids worn_today)))
              wardrobe.

End SpecWords.

(** ** Vocabulary of the statements *)

Module Spec.
Import PlannerAgent.

(** *** Ingestion *)

(** The tags returned on success: the decoded ones with the metadata. *)
Definition tagged (image_path : string) (parsed : gmap string PyVal)
  : gmap string PyVal :=
  <["tagged_by" := VStr "gemini-vision"]>
    (<["image_path" := VStr image_path]> parsed).

(** The sleeps after the failed attempts [first], ..., [first + count - 1]. *)
Definition backoff (first count : nat) : list nat :=
  map (fun attempt => 2 ^ (attempt + 1))%nat (seq first count).

(** A run that started at attempt [first] ended at attempt [k]: the
    attempts before [k] failed and were each followed by a sleep, and
    attempt [k] produced what is returned. *)
Definition ended_at (vision : ImageTagger.Vision) (image_path : string)
    (first made : nat) (naps : list nat) (run : ImageTagger.Run) (k : nat)
  : Prop :=
  (first <= k < Settings.MAX_RETRIES)%nat
  /\ ImageTagger.attempts run = (made + (k - first) + 1)%nat
  /\ ImageTagger.slept run = (naps ++ backoff first (k - first))%list
  /\ (forall j, (first <= j < k)%nat ->
                exists e, vision image_path j = ImageTagger.Raises e)
  /\ match vision image_path k with
     | ImageTagger.Parsed parsed =>
         ImageTagger.returned run = Some (tagged image_path parsed)
     | ImageTagger.Raises error =>
         k = (Settings.MAX_RETRIES - 1)%nat
         /\ ImageTagger.returned run
            = Some (ImageTagger._fallback_tags image_path error)
     end.

(** *** Computations of the planner *)

(** [m], run in [w], returns a value satisfying [Q]: it raises nothing,
    calls no service and leaves the tape of the generator alone. *)
Definition draws {A : Type} (m : M A) (w : World) (Q : A -> Prop) : Prop :=
  exists a w', m w = (inr a, w') /\ api_calls w' = api_calls w
               /\ tape w' = tape w /\ Q a.

(** The world after one call to the generation service. *)
Definition called (w : World) : World :=
  mkWorld (tape w) (pos w) (S (api_calls w)).

(** The [response] variable after the loop. *)
Definition response_of (outcome : ApiOutcome) : option Response :=
  match outcome with
  | ApiReturns r => r
  | ApiRaises _ => None
  end.

(** The test on [error_str] in the handler of the loop. *)
Definition quota_error (msg : string) : bool :=
  orb (PyStr.py_in "429" (PyStr.lower msg))
      (PyStr.py_in "quota" (PyStr.lower msg)).

(** The weather the request runs with. *)
Definition weather_now (env : Env) (context : Context) : Weather :=
  match weather context with
  | Some w => w
  | None => get_weather env (default "New York" (city context))
  end.

(** *** Outfits *)

(** Every true value of the outfit is a wardrobe record. *)
Definition slots_ok (o : gmap string PyVal) : Prop :=
  forall k v, o !! k = Some v -> truthy v = true -> exists i, v = VItem i.

(** The top slot holds a record of the tops or of the dress class. *)
Definition top_covered (o : gmap string PyVal) : Prop :=
  exists t, o !! "top" = Some (VItem t)
            /\ (in_vocab (garment_type t) tops_vocab = true
                \/ in_vocab (garment_type t) dresses_vocab = true).

(** True slots are kept. *)
Definition keeps (o o' : gmap string PyVal) : Prop :=
  forall k, get_truthy o k = true -> o' !! k = o !! k.

(** Only [slot] may differ. *)
Definition only_slot (slot : string) (o o' : gmap string PyVal) : Prop :=
  forall k, k <> slot -> o' !! k = o !! k.

(** What the five filling steps make of the outfit [o0] that the anchor
    step left. *)
Definition assembled (wardrobe : list Item) (o0 o : gmap string PyVal) : Prop :=
  slots_ok o
  /\ (forall k, k <> "outerwear" -> get_truthy o0 k = true -> o !! k = o0 !! k)
  /\ (forall t, o0 !! "top" = Some (VItem t) ->
                in_vocab (garment_type t) dresses_vocab = true ->
                o !! "bottom" = o0 !! "bottom")
  /\ (bucket tops_vocab wardrobe <> [] ->
      top_covered o0 \/ get_truthy o0 "top" = false ->
      top_covered o).

(** The fixed part of a fallback result. *)
Definition fallback_shape (r : Outcome) : Prop :=
  success r = true /\ validation r = None
  /\ color_analysis r = Some ManualFallback
  /\ confidence_score r = Some (5 # 10)
  /\ message r = "Outfit generated (Fallback Mode)".

(** What the anchor selection returns. *)
Definition anchor_selected (context : Context) (anchor_item : option Item)
    (allow_repeats : bool) : Prop :=
  match wardrobe_items context with
  | [] => anchor_item = None /\ allow_repeats = false
  | _ :: _ =>
      exists a, anchor_item = Some a
        /\ match valid_items context with
           | _ :: _ => a ∈ valid_items context /\ allow_repeats = false
           | [] => a ∈ wardrobe_items context /\ allow_repeats = true
           end
  end.

(** [i] is a true id of a record in one of [parts] of the outfit [worn]. *)
Definition referenced (worn : gmap string PyVal) (parts : list string) (i : Z)
  : Prop :=
  i <> 0%Z /\ exists part item,
    part ∈ parts /\ worn !! part = Some (VItem item) /\ id item = i.

(** The result of the AI path, with the resolved outfit. *)
Definition ai_outcome (context : Context) (data : OutfitData)
    (resolved : gmap string PyVal) (w : Weather) : Outcome :=
  mkOutcome true (Some "PlannerAgent") resolved
    (Some (default "" (od_reasoning data)))
    (Some (default (8 # 10) (od_confidence data)))
    (Some (_validate_outfit data (wardrobe_items context)
                            (default "unisex" (gender context))))
    (Some (Analysed (ColorMatcher.analyze_outfit_colors
                       (_get_outfit_items data (wardrobe_items context)))))
    (Some w) "Outfit generated successfully".

(** Which way a request goes, by the answer of the service to the one
    call: the fallback built around the anchor, the last-resort fallback
    of the handler (without anchor), or the AI path. *)
Inductive Path :=
| FallbackWithAnchor
| FallbackLastResort
| AiPath (data : OutfitData) (resolved : gmap string PyVal).

Definition path_of (env : Env) (wardrobe : list Item) (outcome : ApiOutcome)
  : Path :=
  match response_of outcome with
  | None => FallbackWithAnchor
  | Some response =>
      match text response with
      | inl _ => FallbackLastResort
      | inr response_text =>
          let data := _parse_outfit_response env response_text in
          match od_outfit data with
          | FieldFalsy => FallbackWithAnchor
          | FieldOther => FallbackLastResort
          | FieldMapping m =>
              if bool_decide (m = ∅) then FallbackWithAnchor
              else match _resolve_item_images m wardrobe with
                   | inl _ => FallbackLastResort
                   | inr resolved => AiPath data resolved
                   end
          end
      end
  end.

(** *** Resolver *)

(** Every character of [s] satisfies [p]. *)
Fixpoint all_of (p : ascii -> bool) (s : string) : bool :=
  match s with
  | EmptyString => true
  | String c r => andb (p c) (all_of p r)
  end.

(** [s] is empty or begins with a character satisfying [p]. *)
Definition starts_with (p : ascii -> bool) (s : string) : Prop :=
  match s with
  | EmptyString => True
  | String c _ => p c = true
  end.

Definition not_space (c : ascii) : bool := negb (PyStr.is_space c).
Definition not_digit (c : ascii) : bool := negb (PyStr.is_digit c).






(** [s] begins with white space, an optional [#], white space, and the
    run of digits [g], which is not empty and as long as can be. *)
Definition number_at (s g : string) : Prop :=
  exists ws1 hash ws2 tail,
    s = ws1 ++ hash ++ ws2 ++ g ++ tail
    /\ all_of PyStr.is_space ws1 = true
    /\ (hash = "" \/ hash = "#")
    /\ all_of PyStr.is_space ws2 = true
    /\ g <> "" /\ all_of PyStr.is_digit g = true
    /\ starts_with not_digit tail.

(** The id pattern matches at the start of [s], with the digits [g] as
    its group: the word [item] or [id], then the number. *)
Definition pattern_at (s g : string) : Prop :=
  exists keyword rest,
    s = keyword ++ rest
    /\ (keyword = "item" \/ keyword = "id")
    /\ number_at rest g.


(** The pattern occurs nowhere in [s]. *)
Definition no_hit (s : string) : Prop :=
  forall before rest g, s = before ++ rest -> ~ pattern_at rest g.








(** *** Structural validation *)

(** [n] is [len] of the accessories of the outfit: 0 for an outfit
    without the entry, the length of a list or of a text, the number of
    keys of a record. *)
Inductive accessories_count (record_len : Item -> nat)
    (outfit : gmap string PyVal) : nat -> Prop :=
| count_absent :
    outfit !! "accessories" = None -> accessories_count record_len outfit 0
| count_list (l : list string) :
    outfit !! "accessories" = Some (VList l) ->
    accessories_count record_len outfit (length l)
| count_text (t : string) :
    outfit !! "accessories" = Some (VStr t) ->
    accessories_count record_len outfit (String.length t)
| count_record (i : Item) :
    outfit !! "accessories" = Some (VItem i) ->
    accessories_count record_len outfit (record_len i).

(** The accessory ceiling of a profile, named in lowercase. *)
Definition ceiling_of (profile : string) : nat :=
  if String.eqb profile "male" then 3%nat
  else if String.eqb profile "female" then 5%nat
  else 4%nat.

(** What the outfit lacks of the requirements of the profile: top, bottom
    and shoes; for the female profile a top or a dress, a bottom unless
    there is a dress, and shoes. *)
Definition missing_names (profile : string) (outfit : gmap string PyVal)
  : list string :=
  let has := get_truthy outfit in
  let unless (present : bool) (name : string) :=
    if present then [] else [name] in
  if String.eqb profile "female" then
    (unless (orb (has "top") (has "dress")) "top or dress"
     ++ unless (orb (has "dress") (has "bottom")) "bottom (unless wearing dress)"
     ++ unless (has "shoes") "shoes")%list
  else
    (unless (has "top") "top" ++ unless (has "bottom") "bottom"
     ++ unless (has "shoes") "shoes")%list.

End Spec.

(** ** Concrete wardrobes and environments *)

Module Fixtures.
Import PlannerAgent.

Definition shirt : Item := mkItem 1 "shirt" "red".
Definition pants : Item := mkItem 2 "pants" "orange".
Definition sneakers : Item := mkItem 3 "sneakers" "white".
Definition jacket : Item := mkItem 5 "jacket" "black".

(** A generator that always draws 0, no call made yet. *)
Definition world0 : World := mkWorld (fun _ => 0%nat) 0 0.

Definition wardrobe_of (items : list Item) : Context :=
  mkContext items [] None (Some "male") None None.

(** The jacket was worn today, as outerwear. *)
Definition jacket_worn : Context :=
  mkContext [jacket] [ {[ "outerwear" := VItem jacket ]} ] None None None None.

(** The service answers every call with a quota error. *)
Definition env_quota : Env :=
  mkEnv (fun _ => default_weather)
        (fun _ _ => ApiRaises "429 Resource exhausted")
        (fun _ => None).

(** The service answers with an object whose outfit names the sneakers. *)
Definition shoes_only : OutfitData :=
  mkOutfitData (FieldMapping {[ "shoes" := JText "Item #3" ]})
               (Some "Keep it simple.") (Some (9 # 10)).

Definition env_shoes_only : Env :=
  mkEnv (fun _ => default_weather)
        (fun _ _ => ApiReturns (Some (mkResponse (inr "{...}"))))
        (fun _ => Some shoes_only).

(** The records of the wardrobe table have sixteen columns. *)
Definition record_len : Item -> nat := fun _ => 16%nat.

Definition green_pants : Item := mkItem 7 "pants" "green".

(** A text of [n] digits. *)
Fixpoint ones (n : nat) : string :=
  match n with
  | O => EmptyString
  | S m => String "1" (ones m)
  end.

(** A service that never answers with tags. *)
Definition vision_down : ImageTagger.Vision :=
  fun _ _ => ImageTagger.Raises "503 unavailable".

End Fixtures.

(** ** Color harmony *)

Section Color.
Import ColorMatcher.

Lemma length_ge_2 {A} (l : list A) : (2 <= length l)%nat -> (length l <? 2)%nat = false.
Proof. intros H. apply Nat.ltb_ge. exact H. Qed.

Lemma existsb_neutral_false (colors : list string) :
  Forall (fun c => PyStr.lower c ∉ neutrals) colors ->
  existsb is_neutral (map PyStr.lower colors) = false.
Proof.
  induction 1 as [|c l Hc _ IH]; simpl; [reflexivity|].
  rewrite IH, orb_false_r. unfold is_neutral.
  apply bool_decide_eq_false. exact Hc.
Qed.

Lemma existsb_neutral_true (colors : list string) :
  Exists (fun c => PyStr.lower c ∈ neutrals) colors ->
  existsb is_neutral (map PyStr.lower colors) = true.
Proof.
  induction 1 as [c l Hc|c l _ IH]; simpl.
  - unfold is_neutral at 1. rewrite (bool_decide_eq_true_2 _ Hc). reflexivity.
  - rewrite IH. apply orb_true_r.
Qed.

(** C10: a list of at least two colors, none of them neutral once
    lowercased, whose first color is no key of the complementary table, is
    accepted: [validate_combination] answers valid with score 0.7. *)
Theorem unknown_primary_is_permitted (colors : list string) (primary : string) :
  (2 <= length colors)%nat ->
  Forall (fun c => PyStr.lower c ∉ neutrals) colors ->
  head colors = Some primary ->
  Settings.COLOR_COMPLEMENTARY !! PyStr.lower primary = None ->
  validate_combination colors = mkValidation true (7 # 10) NotInDatabase.
Proof.
  intros Hlen Hneutral Hhead Hkey.
  unfold validate_combination.
  rewrite (length_ge_2 _ Hlen), (existsb_neutral_false _ Hneutral).
  destruct colors as [|c rest]; [discriminate|].
  injection Hhead as ->. simpl map. cbv iota. cbv beta.
  rewrite Hkey. reflexivity.
Qed.

Lemma ratio_half (m n : nat) :
  n <> 0%nat -> Qle_bool (1 # 2) (ratio m n) = true <-> (n <= 2 * m)%nat.
Proof.
  intros Hn. rewrite Qle_bool_iff. unfold Qle, ratio. simpl Qnum. simpl Qden.
  rewrite <- (Nat2Pos.id n Hn) at 2.
  rewrite <- positive_nat_Z. lia.
Qed.

Lemma complement_case (primary : string) (secondary complements : list string) :
  secondary <> [] ->
  Forall (fun c => PyStr.lower c ∉ neutrals) (primary :: secondary) ->
  Settings.COLOR_COMPLEMENTARY !! PyStr.lower primary = Some complements ->
  existsb (String.eqb "any") complements = false ->
  let m := matching complements (map PyStr.lower secondary) in
  let r := validate_combination (primary :: secondary) in
  score r = ratio m (length secondary)
  /\ (valid r = true <-> (length secondary <= 2 * m)%nat).
Proof.
  intros Hsec Hneutral Hkey Hany m r. subst r.
  unfold validate_combination.
  rewrite length_ge_2 by (destruct secondary; [congruence | simpl; lia]).
  rewrite (existsb_neutral_false _ Hneutral).
  simpl map. cbv iota. cbv beta. rewrite Hkey, Hany.
  fold m.
  assert (Hlen : length (map PyStr.lower secondary) = length secondary)
    by apply length_map.
  destruct (map PyStr.lower secondary) as [|s0 rest] eqn:Hmap.
  { destruct secondary; [congruence | discriminate]. }
  rewrite Hlen.
  assert (Hn : length secondary <> 0%nat) by (destruct secondary; [congruence | simpl; lia]).
  destruct (Qle_bool (1 # 2) (ratio m (length secondary))) eqn:Hq; simpl.
  - split; [reflexivity|]. split; [intros _|reflexivity].
    apply (ratio_half m _ Hn). exact Hq.
  - split; [reflexivity|]. split; [discriminate|].
    intros H. apply (ratio_half m _ Hn) in H. congruence.
Qed.

(** C6, amended: fewer than two colors are valid with score 1; with two
    or more, a neutral color makes the list valid with score 0.95;
    otherwise, when the first color is a key of the table that does not
    list "any", the score is the fraction of the secondary colors that
    CONTAIN a listed complement as a substring, and the list is valid
    exactly when that is at least one half.  Blue with white is valid with
    score 0.95, red with orange is not valid, with score 0. *)
Theorem color_harmony :
  (forall colors, (length colors < 2)%nat ->
     validate_combination colors = mkValidation true 1 SingleOrNone)
  /\ (forall colors, (2 <= length colors)%nat ->
       Exists (fun c => PyStr.lower c ∈ neutrals) colors ->
       validate_combination colors = mkValidation true (95 # 100) ContainsNeutral)
  /\ (forall primary secondary complements,
       secondary <> [] ->
       Forall (fun c => PyStr.lower c ∉ neutrals) (primary :: secondary) ->
       Settings.COLOR_COMPLEMENTARY !! PyStr.lower primary = Some complements ->
       existsb (String.eqb "any") complements = false ->
       let m := matching complements (map PyStr.lower secondary) in
       let r := validate_combination (primary :: secondary) in
       score r = ratio m (length secondary)
       /\ (valid r = true <-> (length secondary <= 2 * m)%nat))
  /\ validate_combination ["blue"; "white"]
     = mkValidation true (95 # 100) ContainsNeutral
  /\ validate_combination ["red"; "orange"] = mkValidation false 0 MayClash.
Proof.
  split; [|split; [|split; [|split]]].
  - intros colors Hlen. unfold validate_combination.
    apply Nat.ltb_lt in Hlen. rewrite Hlen. reflexivity.
  - intros colors Hlen Hex. unfold validate_combination.
    rewrite (length_ge_2 _ Hlen), (existsb_neutral_true _ Hex). reflexivity.
  - apply complement_case.
  - vm_compute. reflexivity.
  - vm_compute. reflexivity.
Qed.

(** C6 as stated fails: "light orange" contains the complement "orange"
    of blue, so the pair is valid, yet it is no substring of any listed
    complement; "ora" is a substring of "orange", yet the pair is not
    valid. *)
Lemma color_harmony_direction :
  let complements := ["orange"; "yellow"; "white"; "beige"] in
  Settings.COLOR_COMPLEMENTARY !! "blue" = Some complements
  /\ valid (validate_combination ["blue"; "light orange"]) = true
  /\ SpecWords.half_appear complements ["light orange"] = false
  /\ valid (validate_combination ["blue"; "ora"]) = false
  /\ SpecWords.half_appear complements ["ora"] = true.
Proof. vm_compute. repeat split; reflexivity. Qed.

(** The hypotheses of C10 hold of teal with magenta. *)
Lemma unknown_primary_is_permitted_witness :
  validate_combination ["teal"; "magenta"]
  = mkValidation true (7 # 10) NotInDatabase.
Proof.
  apply (unknown_primary_is_permitted ["teal"; "magenta"] "teal").
  - simpl. lia.
  - apply (bool_decide_unpack _). vm_compute. exact I.
  - reflexivity.
  - vm_compute. reflexivity.
Defined.

End Color.

(** ** Ingestion retry *)

Section Tagger.
Import ImageTagger Spec.
Variable vision : Vision.
Variable image_path : string.

Lemma tag_attempts_ends (count first made : nat) (naps : list nat) :
  (first + count = Settings.MAX_RETRIES)%nat -> count <> 0%nat ->
  exists k, ended_at vision image_path first made naps
              (tag_attempts vision image_path (seq first count) made naps) k.
Proof.
  revert first made naps.
  induction count as [|count IH]; intros first made naps Hsum Hpos; [congruence|].
  cbn [seq tag_attempts].
  destruct (vision image_path first) as [error|parsed] eqn:Hfirst.
  - destruct (first =? Settings.MAX_RETRIES - 1)%nat eqn:Hlast.
    + apply Nat.eqb_eq in Hlast. exists first. unfold ended_at, backoff.
      rewrite Nat.sub_diag, Hfirst. cbn [seq map attempts slept returned].
      rewrite app_nil_r.
      repeat split; try lia; try reflexivity; try assumption.
    + apply Nat.eqb_neq in Hlast.
      destruct (IH (S first) (S made) (naps ++ [2 ^ (first + 1)]%nat)%list)
        as (k & Hk & Hmade & Hslept & Hfailed & Hres); [lia | lia |].
      exists k. unfold ended_at. repeat split; try lia.
      * rewrite Hslept. unfold backoff.
        replace (k - first)%nat with (S (k - S first)) by lia.
        simpl. rewrite <- app_assoc. reflexivity.
      * intros j Hj. destruct (decide (j = first)) as [->|Hne]; [eauto|].
        apply Hfailed. lia.
      * exact Hres.
  - exists first. unfold ended_at, backoff. rewrite Nat.sub_diag, Hfirst. cbn [seq map attempts slept returned].
    rewrite app_nil_r.
    repeat split; try lia; try reflexivity.
Qed.

Lemma fallback_tags_contract (error : string) :
  let tags := _fallback_tags image_path error in
  tags !! "garment_type" = Some (VStr "unknown")
  /\ tags !! "tagged_by" = Some (VStr "fallback")
  /\ tags !! "error" = Some (VStr error)
  /\ PerceptionAgent.validate_garment_data tags = PerceptionAgent.mkResult true [].
Proof. repeat split; vm_compute; reflexivity. Qed.

Lemma tagged_by_service (parsed : gmap string PyVal) :
  tagged image_path parsed !! "tagged_by" = Some (VStr "gemini-vision")
  /\ tagged image_path parsed !! "image_path" = Some (VStr image_path)
  /\ forall key, key <> "tagged_by" -> key <> "image_path" ->
       tagged image_path parsed !! key = parsed !! key.
Proof.
  unfold tagged. split; [|split].
  - apply lookup_insert_eq.
  - rewrite lookup_insert_ne by discriminate. apply lookup_insert_eq.
  - intros key H1 H2. rewrite !lookup_insert_ne by congruence. reflexivity.
Qed.

(** C8: whatever the service answers, [tag_garment] returns tags; it
    makes at most [MAX_RETRIES] attempts and sleeps 2, 4, ... seconds
    after the failed ones that are not the last.  The attempt it ends
    with either succeeded, and the tags are the decoded ones tagged by the
    service, or was the last allowed one, and the tags are the fallback
    record: garment type unknown, tagged by fallback, the error attached,
    every required field true. *)
Theorem tag_garment_always_returns :
  let run := tag_garment vision image_path in
  exists k tags,
    returned run = Some tags
    /\ attempts run = S k /\ (S k <= Settings.MAX_RETRIES)%nat
    /\ slept run = map (fun attempt => 2 ^ (attempt + 1))%nat (seq 0 k)
    /\ (forall j, (j < k)%nat -> exists e, vision image_path j = Raises e)
    /\ match vision image_path k with
       | Parsed parsed =>
           tags = tagged image_path parsed
           /\ tags !! "tagged_by" = Some (VStr "gemini-vision")
           /\ forall key, key <> "tagged_by" -> key <> "image_path" ->
                          tags !! key = parsed !! key
       | Raises error =>
           S k = Settings.MAX_RETRIES
           /\ tags = _fallback_tags image_path error
           /\ tags !! "garment_type" = Some (VStr "unknown")
           /\ tags !! "tagged_by" = Some (VStr "fallback")
           /\ tags !! "error" = Some (VStr error)
           /\ PerceptionAgent.validate_garment_data tags
              = PerceptionAgent.mkResult true []
       end.
Proof.
  intros run.
  destruct (tag_attempts_ends Settings.MAX_RETRIES 0 0 [])
    as (k & Hk & Hmade & Hslept & Hfailed & Hres);
    [reflexivity | discriminate |].
  fold (tag_garment vision image_path) in Hmade, Hslept, Hres.
  fold run in Hmade, Hslept, Hres.
  rewrite Nat.sub_0_r in Hmade, Hslept.
  destruct (vision image_path k) as [error|parsed] eqn:Hlast.
  - destruct Hres as [Hk' Hret].
    exists k, (_fallback_tags image_path error).
    split; [exact Hret|]. split; [lia|]. split; [lia|].
    split; [exact Hslept|]. split; [intros j Hj; apply Hfailed; lia|].
    rewrite Hlast. split; [unfold Settings.MAX_RETRIES in *; lia|].
    split; [reflexivity|]. apply fallback_tags_contract.
  - exists k, (tagged image_path parsed).
    split; [exact Hres|]. split; [lia|]. split; [lia|].
    split; [exact Hslept|]. split; [intros j Hj; apply Hfailed; lia|].
    rewrite Hlast. split; [reflexivity|].
    destruct (tagged_by_service parsed) as (H1 & _ & H3). auto.
Qed.

End Tagger.

(** With the service down, three attempts are made, with sleeps of 2 and
    4 seconds, and the fallback record comes back. *)
Example tag_garment_service_down :
  ImageTagger.tag_garment Fixtures.vision_down "shirt.jpg"
  = ImageTagger.mkRun
      (Some (ImageTagger._fallback_tags "shirt.jpg" "503 unavailable"))
      3 [2; 4]%nat.
Proof. reflexivity. Qed.

(** ** The planner *)

Section Planner.

Import PlannerAgent Spec.

Section Monad.
Context {A B : Type}.

Lemma draws_ret (a : A) (w : World) (Q : A -> Prop) : Q a -> draws (mret a) w Q.
Proof. intros H. exists a, w. repeat split; assumption. Qed.

Lemma draws_bind (m : M A) (f : A -> M B) (w : World) (Q : B -> Prop) :
  draws m w (fun a => forall w', draws (f a) w' Q) -> draws (m ≫= f) w Q.
Proof.
  intros (a & w1 & Hm & Hc & Ht & Hf).
  destruct (Hf w1) as (b & w2 & Hfa & Hc2 & Ht2 & HQ).
  exists b, w2. unfold mbind, M_bind. rewrite Hm.
  repeat split; [exact Hfa | congruence | congruence | exact HQ].
Qed.

Lemma draws_mono (m : M A) (w : World) (P Q : A -> Prop) :
  (forall a, P a -> Q a) -> draws m w P -> draws m w Q.
Proof.
  intros HPQ (a & w' & Hm & Hc & Ht & HP). exists a, w'. auto.
Qed.

Lemma draws_choice (l : list A) (w : World) (Q : A -> Prop) :
  l <> [] -> (forall x, x ∈ l -> Q x) -> draws (random_choice l) w Q.
Proof.
  intros Hl HQ. destruct l as [|x0 l']; [congruence|].
  destruct (lookup_lt_is_Some_2 (x0 :: l')
              (tape w (pos w) mod length (x0 :: l'))%nat) as [x Hx].
  { apply Nat.mod_upper_bound. simpl. lia. }
  unfold draws, random_choice, mbind, M_bind, draw.
  rewrite Hx. eexists x, _. repeat split.
  apply HQ. eapply list_elem_of_lookup_2. exact Hx.
Qed.

End Monad.

Lemma draws_random (w : World) (Q : Q -> Prop) :
  (forall q, Q q) -> draws random_random w Q.
Proof.
  intros HQ. unfold random_random, mbind, M_bind, draw.
  eexists _, _. repeat split. apply HQ.
Qed.

Lemma draws_roll (candidates : list Item) (threshold : Q) (w : World) :
  draws (roll_if_any candidates threshold) w
        (fun b => b = true -> candidates <> []).
Proof.
  destruct candidates as [|c l]; unfold roll_if_any; lazy beta iota.
  - apply draws_ret. discriminate.
  - apply draws_bind, draws_random. intros q w'. apply draws_ret. discriminate.
Qed.

Lemma draws_fill_if_any (slot : string) (candidates : list Item)
    (o : gmap string PyVal) (w : World) :
  draws (fill_if_any slot candidates o) w
        (fun o' => (candidates = [] /\ o' = o)
                   \/ exists x, x ∈ candidates /\ o' = <[slot := VItem x]> o).
Proof.
  destruct candidates as [|c l]; unfold fill_if_any; lazy beta iota.
  - apply draws_ret. left. split; reflexivity.
  - apply draws_bind, draws_choice; [discriminate|].
    intros x Hx w'. apply draws_ret. right. exists x. split; [exact Hx | reflexivity].
Qed.

Lemma bucket_elem (vocabulary : list string) (wardrobe : list Item) (x : Item) :
  x ∈ bucket vocabulary wardrobe ->
  x ∈ wardrobe /\ in_vocab (garment_type x) vocabulary = true.
Proof.
  unfold bucket. rewrite !list_elem_of_In, filter_In. tauto.
Qed.

Lemma get_truthy_insert_item (o : gmap string PyVal) (slot : string) (x : Item) :
  get_truthy (<[slot := VItem x]> o) slot = true.
Proof. unfold get_truthy. rewrite lookup_insert_eq. reflexivity. Qed.

Lemma keeps_refl (o : gmap string PyVal) : keeps o o.
Proof. intros k _. reflexivity. Qed.

Lemma keeps_trans (o1 o2 o3 : gmap string PyVal) :
  keeps o1 o2 -> keeps o2 o3 -> keeps o1 o3.
Proof.
  intros H12 H23 k Hk. rewrite <- (H12 k Hk). apply H23.
  unfold get_truthy in *. rewrite (H12 k Hk). exact Hk.
Qed.

Lemma keeps_insert (o : gmap string PyVal) (slot : string) (v : PyVal) :
  get_truthy o slot = false -> keeps o (<[slot := v]> o).
Proof.
  intros Hfalse k Hk. destruct (decide (slot = k)) as [->|Hne].
  - congruence.
  - apply lookup_insert_ne. exact Hne.
Qed.

Lemma only_slot_insert (o : gmap string PyVal) (slot : string) (v : PyVal) :
  only_slot slot o (<[slot := v]> o).
Proof. intros k Hk. apply lookup_insert_ne. congruence. Qed.

Lemma only_slot_refl (slot : string) (o : gmap string PyVal) : only_slot slot o o.
Proof. intros k _. reflexivity. Qed.

Lemma slots_ok_insert (o : gmap string PyVal) (slot : string) (x : Item) :
  slots_ok o -> slots_ok (<[slot := VItem x]> o).
Proof.
  intros Hok k v Hk Hv. destruct (decide (slot = k)) as [->|Hne].
  - rewrite lookup_insert_eq in Hk. injection Hk as <-. eauto.
  - rewrite lookup_insert_ne in Hk by exact Hne. eauto.
Qed.

Lemma slots_ok_insert_none (o : gmap string PyVal) (slot : string) :
  slots_ok o -> slots_ok (<[slot := VNone]> o).
Proof.
  intros Hok k v Hk Hv. destruct (decide (slot = k)) as [->|Hne].
  - rewrite lookup_insert_eq in Hk. injection Hk as <-. discriminate.
  - rewrite lookup_insert_ne in Hk by exact Hne. eauto.
Qed.

Lemma slots_ok_empty : slots_ok ∅.
Proof. intros k v Hk. rewrite lookup_empty in Hk. discriminate. Qed.

Lemma top_covered_keeps (o o' : gmap string PyVal) :
  keeps o o' -> top_covered o -> top_covered o'.
Proof.
  intros Hkeep (t & Ht & Hclass). exists t. split; [|exact Hclass].
  rewrite Hkeep; [exact Ht|]. unfold get_truthy. rewrite Ht. reflexivity.
Qed.

Lemma top_covered_only (slot : string) (o o' : gmap string PyVal) :
  slot <> "top" -> only_slot slot o o' -> top_covered o -> top_covered o'.
Proof.
  intros Hslot Honly (t & Ht & Hclass). exists t. split; [|exact Hclass].
  rewrite Honly; [exact Ht | congruence].
Qed.

Section Steps.
Variable wardrobe : list Item.
Let tops := bucket tops_vocab wardrobe.
Let bottoms := bucket bottoms_vocab wardrobe.
Let shoes := bucket shoes_vocab wardrobe.
Let dresses := bucket dresses_vocab wardrobe.
Let outerwear := bucket outerwear_vocab wardrobe.

(** What filling one slot that was false from a bucket does. *)
Lemma fill_if_any_step (slot : string) (candidates : list Item)
    (o : gmap string PyVal) (w : World) :
  get_truthy o slot = false ->
  draws (fill_if_any slot candidates o) w
        (fun o' => keeps o o' /\ only_slot slot o o'
                   /\ (slots_ok o -> slots_ok o')
                   /\ (candidates <> [] ->
                       exists x, x ∈ candidates /\ o' !! slot = Some (VItem x))).
Proof.
  intros Hfalse. eapply draws_mono; [|apply draws_fill_if_any].
  intros o' [[-> ->] | (x & Hx & ->)].
  - split; [apply keeps_refl|]. split; [apply only_slot_refl|].
    split; [auto | congruence].
  - split; [apply keeps_insert; exact Hfalse|].
    split; [apply only_slot_insert|].
    split; [apply slots_ok_insert|].
    intros _. exists x. split; [exact Hx | apply lookup_insert_eq].
Qed.

Lemma fill_top_bottom_step (o : gmap string PyVal) (w : World) :
  draws (fill_top_bottom tops bottoms dresses o) w
        (fun o' => keeps o o'
                   /\ (slots_ok o -> slots_ok o')
                   /\ (forall k, k <> "top" -> k <> "bottom" -> o' !! k = o !! k)
                   /\ (orb (get_truthy o "top") (get_truthy o "bottom") = true
                       -> o' = o)
                   /\ (get_truthy o "top" = false ->
                       get_truthy o "bottom" = false ->
                       tops <> [] -> top_covered o')).
Proof.
  unfold fill_top_bottom.
  destruct (get_truthy o "top") eqn:Htop; cbn [negb andb orb].
  { apply draws_ret. split; [apply keeps_refl|]. repeat split; auto; congruence. }
  destruct (get_truthy o "bottom") eqn:Hbottom; cbn [negb andb orb].
  { apply draws_ret. split; [apply keeps_refl|]. repeat split; auto; congruence. }
  apply draws_bind. eapply draws_mono; [|apply draws_roll].
  intros [|] Hroll w1.
  - apply draws_bind, draws_choice; [auto|].
    intros d Hd w2. apply draws_ret.
    split; [apply keeps_insert; exact Htop|].
    split; [apply slots_ok_insert|].
    split; [intros k H1 H2; apply lookup_insert_ne; congruence|].
    split; [discriminate|].
    intros _ _ _. exists d. split; [apply lookup_insert_eq|].
    right. apply (bucket_elem _ _ _ Hd).
  - apply draws_bind.
    eapply draws_mono; [|apply (fill_if_any_step "top" tops o w1 Htop)].
    intros o1 (Hkeep1 & Honly1 & Hok1 & Hfill1) w2.
    assert (Hbottom1 : get_truthy o1 "bottom" = false).
    { unfold get_truthy in *. rewrite Honly1 by discriminate. exact Hbottom. }
    eapply draws_mono; [|apply (fill_if_any_step "bottom" bottoms o1 w2 Hbottom1)].
    intros o2 (Hkeep2 & Honly2 & Hok2 & Hfill2).
    split; [eapply keeps_trans; eassumption|].
    split; [auto|].
    split; [intros k H1 H2; rewrite Honly2, Honly1 by congruence; reflexivity|].
    split; [discriminate|].
    intros _ _ Htops. destruct (Hfill1 Htops) as (t & Ht & Hlook).
    exists t. split.
    + rewrite Honly2 by discriminate. exact Hlook.
    + left. apply (bucket_elem _ _ _ Ht).
Qed.

Lemma fill_bottom_step (o : gmap string PyVal) (w : World) :
  slots_ok o ->
  draws (fill_bottom bottoms o) w
        (fun o' => keeps o o' /\ only_slot "bottom" o o' /\ slots_ok o'
                   /\ (forall t, o !! "top" = Some (VItem t) ->
                                 in_vocab (garment_type t) dresses_vocab = true ->
                                 o' = o)).
Proof.
  intros Hok. unfold fill_bottom.
  destruct (get_truthy o "top") eqn:Htop; cbn [negb andb].
  2:{ apply draws_ret. split; [apply keeps_refl|].
      split; [apply only_slot_refl|]. split; auto. }
  destruct (get_truthy o "bottom") eqn:Hbottom; cbn [negb andb].
  { apply draws_ret. split; [apply keeps_refl|].
    split; [apply only_slot_refl|]. split; auto. }
  unfold get_truthy in Htop.
  destruct (o !! "top") as [v|] eqn:Hlook; [|discriminate].
  destruct (Hok _ _ Hlook Htop) as [t ->].
  destruct (in_vocab (garment_type t) dresses_vocab) eqn:Hdress.
  - apply draws_ret. split; [apply keeps_refl|].
    split; [apply only_slot_refl|]. split; auto.
  - eapply draws_mono; [|apply (fill_if_any_step "bottom" bottoms o w Hbottom)].
    intros o' (Hkeep & Honly & Hok' & _).
    repeat split; auto. intros t' Ht' Hd. congruence.
Qed.

Lemma fill_top_step (o : gmap string PyVal) (w : World) :
  draws (fill_top tops o) w
        (fun o' => keeps o o' /\ only_slot "top" o o'
                   /\ (slots_ok o -> slots_ok o')
                   /\ (get_truthy o "top" = false ->
                       get_truthy o "bottom" = true ->
                       tops <> [] -> top_covered o')).
Proof.
  unfold fill_top.
  destruct (get_truthy o "bottom") eqn:Hbottom; cbn [negb andb].
  2:{ apply draws_ret. split; [apply keeps_refl|].
      split; [apply only_slot_refl|]. split; [auto | congruence]. }
  destruct (get_truthy o "top") eqn:Htop; cbn [negb andb].
  { apply draws_ret. split; [apply keeps_refl|].
    split; [apply only_slot_refl|]. split; [auto | congruence]. }
  eapply draws_mono; [|apply (fill_if_any_step "top" tops o w Htop)].
  intros o' (Hkeep & Honly & Hok' & Hfill).
  repeat split; auto. intros _ _ Htops.
  destruct (Hfill Htops) as (t & Ht & Hlook). exists t.
  split; [exact Hlook | left; apply (bucket_elem _ _ _ Ht)].
Qed.

Lemma fill_shoes_step (o : gmap string PyVal) (w : World) :
  draws (fill_shoes shoes o) w
        (fun o' => keeps o o' /\ only_slot "shoes" o o'
                   /\ (slots_ok o -> slots_ok o')).
Proof.
  unfold fill_shoes.
  destruct (get_truthy o "shoes") eqn:Hshoes; cbn [negb].
  { apply draws_ret. split; [apply keeps_refl|].
    split; [apply only_slot_refl | auto]. }
  eapply draws_mono; [|apply (fill_if_any_step "shoes" shoes o w Hshoes)].
  intros o' (Hkeep & Honly & Hok' & _). auto.
Qed.

Lemma add_outerwear_step (o : gmap string PyVal) (w : World) :
  draws (add_outerwear outerwear o) w
        (fun o' => only_slot "outerwear" o o' /\ (slots_ok o -> slots_ok o')).
Proof.
  unfold add_outerwear. apply draws_bind.
  eapply draws_mono; [|apply draws_roll].
  intros [|] Hroll w1.
  - apply draws_bind, draws_choice; [auto|].
    intros x _ w2. apply draws_ret.
    split; [apply only_slot_insert | apply slots_ok_insert].
  - apply draws_ret. split; [apply only_slot_refl | auto].
Qed.

Lemma assemble_steps {B : Type} (o0 : gmap string PyVal) (w : World)
    (rest : gmap string PyVal -> M B) (Q : B -> Prop) :
  slots_ok o0 ->
  (forall o w', assembled wardrobe o0 o -> draws (rest o) w' Q) ->
  draws (o1 ← fill_top_bottom tops bottoms dresses o0;
         o2 ← fill_bottom bottoms o1;
         o3 ← fill_top tops o2;
         o4 ← fill_shoes shoes o3;
         o5 ← add_outerwear outerwear o4;
         rest o5) w Q.
Proof.
  intros Hok0 Hrest.
  apply draws_bind. eapply draws_mono; [|apply fill_top_bottom_step].
  intros o1 (K1 & S1 & O1 & Same1 & Top1) w1.
  apply draws_bind. eapply draws_mono; [|apply fill_bottom_step; auto].
  intros o2 (K2 & O2 & S2 & Dress2) w2.
  apply draws_bind. eapply draws_mono; [|apply fill_top_step].
  intros o3 (K3 & O3 & S3 & Top3) w3.
  apply draws_bind. eapply draws_mono; [|apply fill_shoes_step].
  intros o4 (K4 & O4 & S4) w4.
  apply draws_bind. eapply draws_mono; [|apply add_outerwear_step].
  intros o5 (O5 & S5) w5. apply Hrest.
  assert (K04 : keeps o0 o4) by (repeat (eapply keeps_trans; [eassumption|]); apply keeps_refl).
  split; [auto|]. split; [|split].
  - intros k Hk Htrue. rewrite O5 by exact Hk. apply K04. exact Htrue.
  - intros t Ht Hdress.
    assert (E1 : o1 = o0).
    { apply Same1. unfold get_truthy. rewrite Ht. reflexivity. }
    subst o1. rewrite (Dress2 t Ht Hdress) in *.
    rewrite O5, O4, O3 by discriminate. reflexivity.
  - intros Htops Hstart.
    apply (top_covered_only "outerwear" o4); [discriminate | exact O5 |].
    destruct Hstart as [Hcov | Htop0].
    { eapply top_covered_keeps; eassumption. }
    destruct (get_truthy o0 "bottom") eqn:Hbottom0.
    + assert (E1 : o1 = o0) by (apply Same1; apply orb_true_r).
      subst o1.
      assert (Htop2 : get_truthy o2 "top" = false).
      { unfold get_truthy in *. rewrite O2 by discriminate. exact Htop0. }
      assert (Hbottom2 : get_truthy o2 "bottom" = true).
      { unfold get_truthy in *. rewrite (K2 "bottom"); exact Hbottom0. }
      apply (top_covered_keeps o3); [exact K4|]. auto.
    + apply (top_covered_keeps o1); [|auto].
      repeat (eapply keeps_trans; [eassumption|]); apply keeps_refl.
Qed.

End Steps.

Lemma place_anchor_slots_ok (anchor_item : option Item) :
  slots_ok (place_anchor anchor_item ∅).
Proof.
  unfold place_anchor. destruct anchor_item as [a|]; [|apply slots_ok_empty].
  repeat match goal with
         | |- context [if ?b then _ else _] => destruct b
         end;
    auto using slots_ok_empty, slots_ok_insert, slots_ok_insert_none.
Qed.

Lemma fallback_nonempty (context : Context) (anchor_item : option Item) (w : World) :
  wardrobe_items context <> [] ->
  draws (_generate_fallback_outfit context anchor_item) w
        (fun r => fallback_shape r
                  /\ assembled (wardrobe_items context)
                               (place_anchor anchor_item ∅) (outfit r)).
Proof.
  intros Hne. unfold _generate_fallback_outfit.
  destruct (wardrobe_items context) as [|i0 rest] eqn:Hw; [congruence|].
  rewrite <- Hw.
  apply assemble_steps; [apply place_anchor_slots_ok|].
  intros o w' Hassembled. apply draws_ret.
  split; [repeat split | exact Hassembled].
Qed.

Lemma fallback_empty (context : Context) (anchor_item : option Item) (w : World) :
  wardrobe_items context = [] ->
  _generate_fallback_outfit context anchor_item w = (inr no_wardrobe, w).
Proof. intros H. unfold _generate_fallback_outfit. rewrite H. reflexivity. Qed.

(** The fallback assembler raises nothing, whatever the wardrobe. *)
Lemma fallback_returns (context : Context) (anchor_item : option Item) (w : World) :
  draws (_generate_fallback_outfit context anchor_item) w
        (fun r => (wardrobe_items context <> [] -> fallback_shape r)
                  /\ (wardrobe_items context = [] -> r = no_wardrobe)).
Proof.
  destruct (wardrobe_items context) as [|i0 rest] eqn:Hw.
  - exists no_wardrobe, w. rewrite fallback_empty by exact Hw.
    repeat split; congruence.
  - eapply draws_mono; [|apply fallback_nonempty; congruence].
    intros r [Hshape _]. split; [auto | congruence].
Qed.

Lemma select_anchor_draws (context : Context) (w : World) :
  draws (select_anchor context) w
        (fun '(anchor_item, allow_repeats) =>
           anchor_selected context anchor_item allow_repeats).
Proof.
  unfold select_anchor, anchor_selected.
  destruct (wardrobe_items context) as [|i0 rest] eqn:Hw.
  - apply draws_ret. split; reflexivity.
  - destruct (valid_items context) as [|v0 vs] eqn:Hv.
    + apply draws_bind, draws_choice; [discriminate|].
      intros a Ha w'. apply draws_ret. exists a. auto.
    + apply draws_bind, draws_choice; [discriminate|].
      intros a Ha w'. apply draws_ret. exists a. auto.
Qed.

(** The retry loop makes one call and stops. *)
Lemma call_model_once (env : Env) (prompt : Prompt) (w : World) :
  call_model env prompt w
  = (inr (response_of (generate_content env prompt (api_calls w))), called w).
Proof.
  unfold call_model. cbn [seq for_range].
  unfold attempt_body, mbind, M_bind, api_call, called, response_of.
  destruct (generate_content env prompt (api_calls w)) as [msg|r].
  - destruct (orb _ _); reflexivity.
  - reflexivity.
Qed.

Lemma generate_outfit_paths (env : Env) (context : Context) (w : World) :
  let context' := with_weather context (weather_now env context) in
  exists anchor_item allow_repeats w1,
    select_anchor context' w = (inr (anchor_item, allow_repeats), w1)
    /\ api_calls w1 = api_calls w
    /\ anchor_selected context' anchor_item allow_repeats
    /\ let prompt := compose_prompt context' anchor_item allow_repeats in
       let outcome := generate_content env prompt (api_calls w) in
       generate_outfit env context w
       = match path_of env (wardrobe_items context') outcome with
         | FallbackWithAnchor =>
             _generate_fallback_outfit context' anchor_item (called w1)
         | FallbackLastResort =>
             _generate_fallback_outfit context' None (called w1)
         | AiPath data resolved =>
             (inr (ai_outcome context' data resolved (weather_now env context)),
              called w1)
         end.
Proof.
  intros context'.
  destruct (select_anchor_draws context' w)
    as ([anchor_item allow_repeats] & w1 & Hsel & Hcalls & _ & Hanchor).
  exists anchor_item, allow_repeats, w1.
  split; [exact Hsel|]. split; [exact Hcalls|]. split; [exact Hanchor|].
  intros prompt outcome.
  unfold generate_outfit. fold (weather_now env context). fold context'.
  unfold try_except, generate_body, mbind, M_bind.
  rewrite Hsel. fold prompt. rewrite call_model_once, Hcalls.
  fold outcome. unfold path_of.
  assert (Hfb : forall a, 
    match _generate_fallback_outfit context' a (called w1) with
    | (inl _, w') => _generate_fallback_outfit context' None w'
    | (inr a0, w') => (inr a0, w')
    end = _generate_fallback_outfit context' a (called w1)).
  { intros a. destruct (fallback_returns context' a (called w1))
      as (r & w' & -> & _). reflexivity. }
  destruct (response_of outcome) as [response|]; [|apply Hfb].
  destruct (text response) as [e|response_text]; [reflexivity|].
  destruct (od_outfit (_parse_outfit_response env response_text)) as [|m|];
    cbn [field_truthy negb].
  - apply Hfb.
  - destruct (bool_decide (m = ∅)); cbn [negb]; [apply Hfb|].
    destruct (_resolve_item_images m (wardrobe_items context')) as [e|resolved];
      reflexivity.
  - reflexivity.
Qed.

Lemma wardrobe_with_weather (context : Context) (w : Weather) :
  wardrobe_items (with_weather context w) = wardrobe_items context.
Proof. reflexivity. Qed.

(** C1: whatever the context, the world and the behaviour of the remote
    service (the call raising, a quota error, no response, a response
    whose text cannot be read or decoded, an outfit that is no mapping),
    [generate_outfit] returns a result and raises nothing; the result has
    success = true whenever the wardrobe is non-empty, so a failure result
    comes from an empty wardrobe only. *)
Theorem generate_outfit_never_raises (env : Env) (context : Context) (w : World) :
  exists r w',
    generate_outfit env context w = (inr r, w')
    /\ (wardrobe_items context <> [] -> success r = true)
    /\ (success r = false -> wardrobe_items context = []).
Proof.
  destruct (generate_outfit_paths env context w)
    as (anchor_item & allow_repeats & w1 & _ & _ & _ & Hgen).
  cbv zeta in Hgen.
  set (context' := with_weather context (weather_now env context)) in *.
  assert (Hfb : forall a w0,
    exists r w', _generate_fallback_outfit context' a w0 = (inr r, w')
      /\ (wardrobe_items context <> [] -> success r = true)).
  { intros a w0. destruct (fallback_returns context' a w0)
      as (r & w' & Hrun & _ & _ & Hshape & _).
    exists r, w'. split; [exact Hrun|]. intros Hne. apply Hshape. exact Hne. }
  assert (Hsome : exists r w', generate_outfit env context w = (inr r, w')
            /\ (wardrobe_items context <> [] -> success r = true)).
  { rewrite Hgen. destruct (path_of env _ _) as [| |data resolved].
    - apply Hfb.
    - apply Hfb.
    - eexists _, _. split; [reflexivity|]. reflexivity. }
  destruct Hsome as (r & w' & Hrun & Hsucc). exists r, w'.
  split; [exact Hrun|]. split; [exact Hsucc|].
  intros Hfail. destruct (wardrobe_items context) as [|i0 rest]; [reflexivity|].
  rewrite Hsucc in Hfail by discriminate. discriminate.
Qed.

(** C7: the generation client returns after at most 2 calls to the
    service, and so does a whole request; when the call fails with a
    message containing "429" or "quota", the loop ends at once with no
    response, having made exactly one attempt, and the result of the
    request is the one the procedural fallback builds around the anchor. *)
Theorem generation_client_fails_fast (env : Env) (context : Context) (w : World) :
  (forall prompt, exists response w',
      call_model env prompt w = (inr response, w')
      /\ (api_calls w' <= api_calls w + 2)%nat
      /\ forall msg, generate_content env prompt (api_calls w) = ApiRaises msg ->
                     quota_error msg = true ->
                     response = None /\ api_calls w' = (api_calls w + 1)%nat)
  /\ exists r w' anchor_item allow_repeats w0,
       select_anchor (with_weather context (weather_now env context)) w
       = (inr (anchor_item, allow_repeats), w0)
       /\ generate_outfit env context w = (inr r, w')
       /\ (api_calls w' <= api_calls w + 2)%nat
       /\ ((forall prompt, exists msg,
              generate_content env prompt (api_calls w) = ApiRaises msg
              /\ quota_error msg = true) ->
           api_calls w' = (api_calls w + 1)%nat
           /\ _generate_fallback_outfit
                (with_weather context (weather_now env context))
                anchor_item (called w0)
              = (inr r, w')).
Proof.
  split.
  - intros prompt. eexists _, _. split; [apply call_model_once|].
    split; [simpl; lia|]. intros msg -> _. split; [reflexivity | simpl; lia].
  - destruct (generate_outfit_paths env context w)
      as (anchor_item & allow_repeats & w0 & Hsel & Hcalls & _ & Hgen).
    cbv zeta in Hgen.
    set (context' := with_weather context (weather_now env context)) in *.
    set (prompt := compose_prompt context' anchor_item allow_repeats) in *.
    assert (Hfb : forall a, exists r w',
      _generate_fallback_outfit context' a (called w0) = (inr r, w')
      /\ api_calls w' = (api_calls w + 1)%nat).
    { intros a. destruct (fallback_returns context' a (called w0))
        as (r & w' & Hrun & Hc & _).
      exists r, w'. split; [exact Hrun|]. rewrite Hc. simpl. lia. }
    assert (Hquota : (forall p, exists msg,
              generate_content env p (api_calls w) = ApiRaises msg
              /\ quota_error msg = true) ->
            path_of env (wardrobe_items context')
                    (generate_content env prompt (api_calls w))
            = FallbackWithAnchor).
    { intros H. destruct (H prompt) as (msg & -> & _). reflexivity. }
    destruct (path_of env (wardrobe_items context')
                      (generate_content env prompt (api_calls w)))
      as [| |data resolved] eqn:Hpath.
    + destruct (Hfb anchor_item) as (r & w' & Hrun & Hc).
      exists r, w', anchor_item, allow_repeats, w0.
      split; [exact Hsel|]. split; [congruence|]. split; [lia|].
      intros _. split; [exact Hc | exact Hrun].
    + destruct (Hfb None) as (r & w' & Hrun & Hc).
      exists r, w', anchor_item, allow_repeats, w0.
      split; [exact Hsel|]. split; [congruence|]. split; [lia|].
      intros H. apply Hquota in H. discriminate.
    + eexists _, _, anchor_item, allow_repeats, w0.
      split; [exact Hsel|]. split; [exact Hgen|]. split; [simpl; lia|].
      intros H. apply Hquota in H. discriminate.
Qed.

(** *** Constraint filter *)

Lemma add_part_elem (worn : gmap string PyVal) (ids : gset Z) (part : string) (i : Z) :
  i ∈ add_part worn ids part
  <-> i ∈ ids \/ (i <> 0%Z /\ exists item, worn !! part = Some (VItem item) /\ id item = i).
Proof.
  unfold add_part.
  destruct (worn !! part) as [[| | |item]|] eqn:Hlook;
    try (split; [auto | intros [H | (_ & item' & H & _)]; [exact H | discriminate]]).
  destruct (Z.eqb_spec (id item) 0) as [Hz|Hnz].
  - split; [auto|]. intros [H | (Hi & item' & Hit & Hid)]; [exact H|].
    injection Hit as <-. congruence.
  - rewrite elem_of_union, elem_of_singleton. split.
    + intros [H | ->]; [auto|]. right. split; [exact Hnz|]. eauto.
    + intros [H | (Hi & item' & Hit & Hid)]; [auto|].
      injection Hit as <-. auto.
Qed.

Lemma fold_parts_elem (worn : gmap string PyVal) (parts : list string)
    (ids : gset Z) (i : Z) :
  i ∈ foldl (add_part worn) ids parts <-> i ∈ ids \/ referenced worn parts i.
Proof.
  revert ids. induction parts as [|part parts IH]; intros ids; cbn [foldl].
  - split; [auto|]. intros [H | (_ & part & item & Hin & _)]; [exact H|].
    apply elem_of_nil in Hin. contradiction.
  - rewrite IH, add_part_elem. unfold referenced. split.
    + intros [[H | (Hi & item & Hit & Hid)] | (Hi & part' & item & Hin & Hit & Hid)].
      * auto.
      * right. split; [exact Hi|]. exists part, item. split; [left|]; auto.
      * right. split; [exact Hi|]. exists part', item. split; [right|]; auto.
    + intros [H | (Hi & part' & item & Hin & Hit & Hid)]; [auto|].
      apply elem_of_cons in Hin as [-> | Hin].
      * left. right. split; [exact Hi|]. eauto.
      * right. split; [exact Hi|]. eauto.
Qed.

Lemma fold_worn_elem (worn_today : list (gmap string PyVal)) (ids : gset Z) (i : Z) :
  i ∈ foldl (fun ids worn => foldl (add_part worn) ids worn_parts) ids worn_today
  <-> i ∈ ids \/ exists worn, worn ∈ worn_today /\ referenced worn worn_parts i.
Proof.
  revert ids. induction worn_today as [|worn rest IH]; intros ids; cbn [foldl].
  - split; [auto|]. intros [H | (worn & Hin & _)]; [exact H|].
    apply elem_of_nil in Hin. contradiction.
  - rewrite IH, fold_parts_elem. split.
    + intros [[H | H] | (worn' & Hin & H)].
      * auto.
      * right. exists worn. split; [left | exact H].
      * right. exists worn'. split; [right; exact Hin | exact H].
    + intros [H | (worn' & Hin & H)]; [auto|].
      apply elem_of_cons in Hin as [-> | Hin]; [auto|]. right. eauto.
Qed.

Lemma worn_ids_elem (worn_today : list (gmap string PyVal)) (i : Z) :
  i ∈ worn_ids worn_today
  <-> exists worn, worn ∈ worn_today /\ referenced worn worn_parts i.
Proof.
  unfold worn_ids. rewrite fold_worn_elem. split; [|auto].
  intros [H | H]; [|exact H]. apply not_elem_of_empty in H. contradiction.
Qed.

Lemma valid_items_elem (context : Context) (x : Item) :
  x ∈ valid_items context
  <-> x ∈ wardrobe_items context /\ id x ∉ worn_ids (worn_today context).
Proof.
  unfold valid_items. rewrite !list_elem_of_In, filter_In.
  rewrite negb_true_iff, bool_decide_eq_false. reflexivity.
Qed.

(** C2, amended: the filter collects the true ids of the records found in
    the top, bottom, shoes and dress entries of the worn-today outfits
    (other entries, such as outerwear, are not looked at); the eligible
    items are exactly the wardrobe items whose id is not collected; when
    none is eligible and the wardrobe is non-empty, repeats are allowed
    and the anchor is drawn from the whole wardrobe, otherwise it is drawn
    from the eligible items. *)
Theorem constraint_filter (context : Context) :
  (forall i, i ∈ worn_ids (worn_today context)
             <-> exists worn, worn ∈ worn_today context
                              /\ referenced worn worn_parts i)
  /\ (forall x, x ∈ valid_items context
                <-> x ∈ wardrobe_items context
                    /\ id x ∉ worn_ids (worn_today context))
  /\ (forall w, exists anchor_item allow_repeats w',
        select_anchor context w = (inr (anchor_item, allow_repeats), w')
        /\ (wardrobe_items context = [] -> anchor_item = None)
        /\ (wardrobe_items context <> [] -> valid_items context = [] ->
            allow_repeats = true
            /\ exists a, anchor_item = Some a /\ a ∈ wardrobe_items context)
        /\ (valid_items context <> [] ->
            allow_repeats = false
            /\ exists a, anchor_item = Some a /\ a ∈ valid_items context)).
Proof.
  split; [intros i; apply worn_ids_elem|].
  split; [intros x; apply valid_items_elem|].
  intros w.
  destruct (select_anchor_draws context w)
    as ([anchor_item allow_repeats] & w' & Hsel & _ & _ & Hanchor).
  exists anchor_item, allow_repeats, w'. split; [exact Hsel|].
  unfold anchor_selected in Hanchor.
  destruct (wardrobe_items context) as [|i0 rest] eqn:Hw.
  - destruct Hanchor as [-> ->]. split; [reflexivity|].
    split; [congruence|]. intros Hv. exfalso. apply Hv.
    unfold valid_items. rewrite Hw. reflexivity.
  - destruct Hanchor as (a & -> & Hcase). split; [discriminate|].
    destruct (valid_items context) as [|v0 vs].
    + destruct Hcase as [Ha ->]. split; [eauto | congruence].
    + destruct Hcase as [Ha ->]. split; [discriminate | eauto].
Qed.

(** *** Anchor placement *)

Lemma in_vocab_In (x : string) (vocabulary : list string) :
  in_vocab x vocabulary = true -> In x vocabulary.
Proof.
  unfold in_vocab. rewrite existsb_exists. intros (y & Hy & Heq).
  apply String.eqb_eq in Heq. subst y. exact Hy.
Qed.

(** The outfit right after the anchor step, by the class of the anchor. *)
Lemma place_anchor_cases (a : Item) :
  let o := place_anchor (Some a) ∅ in
  (in_vocab (garment_type a) dresses_vocab = true ->
   o = <["bottom" := VNone]> (<["top" := VItem a]> ∅))
  /\ (in_vocab (garment_type a) tops_vocab = true -> o = <["top" := VItem a]> ∅)
  /\ (in_vocab (garment_type a) bottoms_vocab = true ->
      o = <["bottom" := VItem a]> ∅)
  /\ (in_vocab (garment_type a) anchor_shoes_vocab = true ->
      o = <["shoes" := VItem a]> ∅)
  /\ (in_vocab (garment_type a) outerwear_vocab = true -> o = ∅).
Proof.
  cbv zeta. unfold place_anchor.
  repeat split; intros H; apply in_vocab_In in H; simpl in H;
    repeat (destruct H as [H|H]; [rewrite <- H; reflexivity|]);
    contradiction.
Qed.

Lemma place_anchor_top (anchor_item : option Item) :
  top_covered (place_anchor anchor_item ∅)
  \/ get_truthy (place_anchor anchor_item ∅) "top" = false.
Proof.
  unfold place_anchor. destruct anchor_item as [a|]; [|right; reflexivity].
  destruct (in_vocab (garment_type a) dresses_vocab) eqn:Hd.
  { left. exists a. split; [reflexivity | auto]. }
  destruct (in_vocab (garment_type a) tops_vocab) eqn:Ht.
  { left. exists a. split; [reflexivity | auto]. }
  destruct (in_vocab (garment_type a) bottoms_vocab); [right; reflexivity|].
  destruct (in_vocab (garment_type a) anchor_shoes_vocab); right; reflexivity.
Qed.

(** C3, amended: the fallback assembler always returns; it reports failure
    (with an empty outfit) for an empty wardrobe only; and whenever the
    wardrobe has an item of the tops bucket, the top slot of its outfit
    holds a record of the tops or of the dress class. *)
Theorem fallback_top_coverage (context : Context) (anchor_item : option Item)
    (w : World) :
  exists r w',
    _generate_fallback_outfit context anchor_item w = (inr r, w')
    /\ (wardrobe_items context = [] -> success r = false /\ outfit r = ∅)
    /\ (wardrobe_items context <> [] -> success r = true)
    /\ (bucket tops_vocab (wardrobe_items context) <> [] ->
        top_covered (outfit r)).
Proof.
  destruct (wardrobe_items context) as [|i0 rest] eqn:Hw.
  - exists no_wardrobe, w. rewrite fallback_empty by exact Hw.
    repeat split; try congruence. intros H. exfalso. apply H. reflexivity.
  - destruct (fallback_nonempty context anchor_item w)
      as (r & w' & Hrun & _ & _ & Hshape & Hassembled); [congruence|].
    exists r, w'. split; [exact Hrun|]. split; [discriminate|].
    split; [intros _; apply Hshape|].
    intros Htops. rewrite Hw in Hassembled.
    destruct Hassembled as (_ & _ & _ & Htop). apply Htop; [exact Htops|].
    apply place_anchor_top.
Qed.

(** C4, amended: with a non-empty wardrobe, an anchor of the dress class
    is in the top slot and the bottom slot stays [None]; an anchor of the
    tops bucket is in the top slot, one of the bottoms bucket in the
    bottom slot, and a "shoes", "sneakers" or "boots" anchor in the shoes
    slot.  The anchor step does not place an outerwear anchor. *)
Theorem anchor_is_placed (context : Context) (a : Item) (w : World) :
  wardrobe_items context <> [] ->
  exists r w',
    _generate_fallback_outfit context (Some a) w = (inr r, w')
    /\ (in_vocab (garment_type a) dresses_vocab = true ->
        outfit r !! "top" = Some (VItem a) /\ outfit r !! "bottom" = Some VNone)
    /\ (in_vocab (garment_type a) tops_vocab = true ->
        outfit r !! "top" = Some (VItem a))
    /\ (in_vocab (garment_type a) bottoms_vocab = true ->
        outfit r !! "bottom" = Some (VItem a))
    /\ (in_vocab (garment_type a) anchor_shoes_vocab = true ->
        outfit r !! "shoes" = Some (VItem a))
    /\ (in_vocab (garment_type a) outerwear_vocab = true ->
        place_anchor (Some a) ∅ = ∅).
Proof.
  intros Hne.
  destruct (fallback_nonempty context (Some a) w Hne)
    as (r & w' & Hrun & _ & _ & _ & Hassembled).
  exists r, w'. split; [exact Hrun|].
  destruct Hassembled as (_ & Hkept & Hdress & _).
  destruct (place_anchor_cases a) as (Pd & Pt & Pb & Ps & Po). cbv zeta in *.
  split; [|split; [|split; [|split]]].
  - intros H. rewrite (Pd H) in Hkept, Hdress. split.
    + rewrite (Hkept "top"); [reflexivity | discriminate | reflexivity].
    + rewrite (Hdress a); [reflexivity | reflexivity | exact H].
  - intros H. rewrite (Pt H) in Hkept.
    rewrite (Hkept "top"); [reflexivity | discriminate | reflexivity].
  - intros H. rewrite (Pb H) in Hkept.
    rewrite (Hkept "bottom"); [reflexivity | discriminate | reflexivity].
  - intros H. rewrite (Ps H) in Hkept.
    rewrite (Hkept "shoes"); [reflexivity | discriminate | reflexivity].
  - exact Po.
Qed.

(** *** Item resolver *)

(** **** Texts *)

Lemma append_cons (c : ascii) (a b : string) :
  String c a ++ b = String c (a ++ b).
Proof. reflexivity. Qed.

Lemma append_nil (b : string) : "" ++ b = b.
Proof. reflexivity. Qed.

Ltac sapp := rewrite ?append_cons, ?append_nil in *.


(** **** White space and tokens *)

Lemma lstrip_spaces (ws s : string) :
  all_of PyStr.is_space ws = true -> PyStr.lstrip (ws ++ s) = PyStr.lstrip s.
Proof.
  induction ws as [|c ws IH]; sapp; [reflexivity|]. simpl.
  intros H. apply andb_true_iff in H as [Hc Hws]. rewrite Hc. auto.
Qed.

Lemma lstrip_split (s : string) :
  exists ws, s = ws ++ PyStr.lstrip s /\ all_of PyStr.is_space ws = true
             /\ starts_with not_space (PyStr.lstrip s).
Proof.
  induction s as [|c s (ws & Hs & Hws & Hstop)]; simpl.
  - exists "". repeat split.
  - destruct (PyStr.is_space c) eqn:Hc.
    + exists (String c ws). sapp. simpl. rewrite Hc, Hws. rewrite <- Hs.
      repeat split. exact Hstop.
    + exists "". repeat split. simpl. unfold not_space. rewrite Hc. reflexivity.
Qed.







(** **** Substrings and the heuristic *)

Lemma prefix_split (needle hay : string) :
  String.prefix needle hay = true <-> exists rest, hay = needle ++ rest.
Proof.
  revert hay. induction needle as [|c needle IH]; intros hay.
  - split; [eauto | intros _; destruct hay; reflexivity].
  - destruct hay as [|d hay]; cbn [String.prefix].
    { split; [discriminate | intros [rest H]; discriminate]. }
    destruct (Ascii.ascii_dec c d) as [Heq|Hne].
    + subst d. rewrite IH. split; intros [rest H]; exists rest.
      * rewrite H. reflexivity.
      * sapp. injection H as H. exact H.
    + split; [discriminate|]. intros [rest H]. sapp.
      injection H as H1 H2. congruence.
Qed.



(** **** The id pattern *)

Lemma digit_not_space (c : ascii) :
  PyStr.is_digit c = true -> PyStr.is_space c = false.
Proof.
  unfold PyStr.is_digit, PyStr.is_space. cbv zeta.
  generalize (nat_of_ascii c). intros n H.
  apply andb_true_iff in H as [H1 H2].
  apply Nat.leb_le in H1. apply Nat.leb_le in H2.
  repeat match goal with
  | |- context [(?a <=? ?b)%nat] => destruct (Nat.leb_spec a b)
  | |- context [(?a =? ?b)%nat] => destruct (Nat.eqb_spec a b)
  end; try reflexivity; lia.
Qed.

Lemma digit_not_hash (c : ascii) :
  PyStr.is_digit c = true -> Ascii.eqb c "#" = false.
Proof.
  intros H. destruct (Ascii.eqb_spec c "#") as [->|]; [discriminate | reflexivity].
Qed.

Lemma take_digits_split (s : string) :
  exists tail, s = take_digits s ++ tail
               /\ all_of PyStr.is_digit (take_digits s) = true
               /\ starts_with not_digit tail.
Proof.
  induction s as [|c s (tail & Hs & Hd & Htail)]; simpl.
  - exists "". repeat split.
  - destruct (PyStr.is_digit c) eqn:Hc.
    + exists tail. sapp. simpl. rewrite Hc, Hd, <- Hs. repeat split. exact Htail.
    + exists (String c s). repeat split. simpl. unfold not_digit. rewrite Hc.
      reflexivity.
Qed.

Lemma take_digits_run (g tail : string) :
  all_of PyStr.is_digit g = true -> starts_with not_digit tail ->
  take_digits (g ++ tail) = g.
Proof.
  intros Hg Htail. induction g as [|c g IH]; sapp.
  - destruct tail as [|d tail]; simpl; [reflexivity|].
    simpl in Htail. unfold not_digit in Htail. apply negb_true_iff in Htail.
    rewrite Htail. reflexivity.
  - simpl in Hg. apply andb_true_iff in Hg as [Hc Hg]. simpl.
    rewrite Hc, IH by exact Hg. reflexivity.
Qed.

Lemma lstrip_digits (g tail : string) :
  g <> "" -> all_of PyStr.is_digit g = true ->
  PyStr.lstrip (g ++ tail) = g ++ tail.
Proof.
  intros Hne Hg. destruct g as [|c g]; [congruence|]. sapp.
  simpl in Hg. apply andb_true_iff in Hg as [Hc _]. simpl.
  rewrite (digit_not_space c Hc). reflexivity.
Qed.

Lemma skip_hash_digits (g tail : string) :
  g <> "" -> all_of PyStr.is_digit g = true ->
  skip_hash (g ++ tail) = g ++ tail.
Proof.
  intros Hne Hg. destruct g as [|c g]; [congruence|]. sapp.
  simpl in Hg. apply andb_true_iff in Hg as [Hc _]. simpl.
  rewrite (digit_not_hash c Hc). reflexivity.
Qed.

Lemma match_number_at (s g : string) :
  match_number s = Some g <-> number_at s g.
Proof.
  unfold match_number, number_at. split.
  - intros H.
    destruct (lstrip_split s) as (ws1 & Hs & Hws1 & _).
    set (r1 := PyStr.lstrip s) in *.
    assert (Hhash : exists hash, r1 = hash ++ skip_hash r1
                                 /\ (hash = "" \/ hash = "#")).
    { destruct r1 as [|c r]; simpl.
      - exists "". auto.
      - destruct (Ascii.eqb_spec c "#") as [->|_].
        + exists "#". auto.
        + exists "". auto. }
    destruct Hhash as (hash & Hr1 & Hhash).
    set (r2 := skip_hash r1) in *.
    destruct (lstrip_split r2) as (ws2 & Hr2 & Hws2 & _).
    set (r3 := PyStr.lstrip r2) in *.
    destruct (take_digits_split r3) as (tail & Hr3 & Hd & Htail).
    assert (Hg : take_digits r3 = g /\ g <> "").
    { destruct (take_digits r3); [discriminate|].
      injection H as <-. split; [reflexivity | discriminate]. }
    destruct Hg as [Hg Hne]. rewrite Hg in *.
    exists ws1, hash, ws2, tail. repeat split; try assumption.
    rewrite Hs at 1. rewrite Hr1 at 1. rewrite Hr2 at 1. rewrite Hr3 at 1.
    reflexivity.
  - intros (ws1 & hash & ws2 & tail & -> & Hws1 & Hhash & Hws2 & Hne & Hg & Htail).
    assert (E : take_digits
                  (PyStr.lstrip (skip_hash (PyStr.lstrip
                     (ws1 ++ hash ++ ws2 ++ g ++ tail)))) = g).
    { rewrite lstrip_spaces by exact Hws1.
      destruct Hhash as [-> | ->]; sapp.
      - rewrite lstrip_spaces by exact Hws2.
        rewrite lstrip_digits, skip_hash_digits, lstrip_digits by assumption.
        apply take_digits_run; assumption.
      - simpl. rewrite lstrip_spaces by exact Hws2.
        rewrite lstrip_digits by assumption.
        apply take_digits_run; assumption. }
    rewrite E. destruct g; [congruence | reflexivity].
Qed.

(** [match_here] decides the pattern at the start of a text, and finds
    its group. *)
Lemma match_here_pattern (s g : string) :
  match_here s = Some g <-> pattern_at s g.
Proof.
  unfold match_here, pattern_at. split.
  - destruct (String.prefix "item" s) eqn:Hitem.
    + apply prefix_split in Hitem as [rest ->].
      change (PyStr.drop 4 ("item" ++ rest)) with rest.
      intros H. apply match_number_at in H.
      exists "item", rest. auto.
    + destruct (String.prefix "id" s) eqn:Hid; [|discriminate].
      apply prefix_split in Hid as [rest ->].
      change (PyStr.drop 2 ("id" ++ rest)) with rest.
      intros H. apply match_number_at in H.
      exists "id", rest. auto.
  - intros (keyword & rest & -> & Hk & Hn). apply match_number_at in Hn.
    destruct Hk as [-> | ->].
    + replace (String.prefix "item" ("item" ++ rest))
        with true by (symmetry; apply prefix_split; eauto).
      exact Hn.
    + replace (String.prefix "item" ("id" ++ rest)) with false by reflexivity.
      replace (String.prefix "id" ("id" ++ rest))
        with true by (symmetry; apply prefix_split; eauto).
      exact Hn.
Qed.

Lemma search_id_unfold (s : string) :
  search_id s
  = match match_here s with
    | Some digits => Some digits
    | None => match s with
              | EmptyString => None
              | String _ r => search_id r
              end
    end.
Proof. destruct s; reflexivity. Qed.




Lemma search_id_none (s : string) : search_id s = None -> no_hit s.
Proof.
  induction s as [|c s IH]; rewrite search_id_unfold.
  - destruct (match_here "") as [g'|] eqn:Hhere; [discriminate|].
    intros _ before rest g Heq Hp. destruct before; [|discriminate].
    sapp. subst rest. apply match_here_pattern in Hp. congruence.
  - destruct (match_here (String c s)) as [g'|] eqn:Hhere; [discriminate|].
    intros H before rest g Heq Hp. destruct before as [|c' before].
    + sapp. subst rest. apply match_here_pattern in Hp. congruence.
    + sapp. injection Heq as _ Heq. exact (IH H before rest g Heq Hp).
Qed.

(** **** Numbers *)





(** **** Searching the wardrobe *)










(** *** Validation stage *)

Lemma rule_of_profile (gender : string) :
  GenderStyleRules.rule_of gender
  = let profile := PyStr.lower gender in
    if String.eqb profile "male"
    then GenderStyleRules.mkRule ["top"; "bottom"; "shoes"] 3
    else if String.eqb profile "female"
    then GenderStyleRules.mkRule ["top_or_dress"; "bottom_optional"; "shoes"] 5
    else GenderStyleRules.mkRule ["top"; "bottom"; "shoes"] 4.
Proof.
  unfold GenderStyleRules.rule_of, GenderStyleRules.rules. cbv zeta.
  generalize (PyStr.lower gender). intros profile.
  cbn [list_to_map foldr fst snd].
  destruct (String.eqb_spec profile "male") as [->|Hm]; [reflexivity|].
  rewrite lookup_insert_ne by congruence.
  destruct (String.eqb_spec profile "female") as [->|Hf]; [reflexivity|].
  rewrite lookup_insert_ne by congruence.
  destruct (decide (profile = "unisex")) as [->|Hu]; [reflexivity|].
  rewrite lookup_insert_ne by congruence. reflexivity.
Qed.

Lemma accessories_count_len (record_len : Item -> nat)
    (outfit : gmap string PyVal) (n : nat) :
  accessories_count record_len outfit n ->
  GenderStyleRules.accessories_len record_len outfit = Some n.
Proof.
  unfold GenderStyleRules.accessories_len.
  intros [H|l H|t H|i H]; rewrite H; reflexivity.
Qed.

(** C9, amended: a request always returns, and what it attaches depends on
    the way it went.  On the AI path the result carries the resolved
    outfit, the constant validation (valid, score 0.8, no issue) and the
    color analysis of the first three wardrobe items, whose verdict is
    [validate_combination] of their colors.  On a fallback path, with a
    wardrobe that is not empty, it carries no structural validation and
    the fixed "manual fallback" color note.  The structural validator of
    the gender profile, when it is called, scores 0.6 above the accessory
    ceiling of the profile (3 male, 5 female, 4 otherwise), else 0.3 with
    the missing names when a required category is missing, else 1; it
    raises on accessories that are null. *)
Theorem validation_stage (env : Env) (context : Context) (w : World) :
  (let context' := with_weather context (weather_now env context) in
   let wardrobe := wardrobe_items context in
   exists anchor_item allow_repeats w0 r w',
     select_anchor context' w = (inr (anchor_item, allow_repeats), w0)
     /\ generate_outfit env context w = (inr r, w')
     /\ match path_of env wardrobe
                (generate_content env
                   (compose_prompt context' anchor_item allow_repeats)
                   (api_calls w)) with
        | AiPath data resolved =>
            success r = true
            /\ outfit r = resolved
            /\ validation r = Some (mkValidation true (8 # 10) [])
            /\ exists a,
                 color_analysis r = Some (Analysed a)
                 /\ ColorMatcher.colors_used a
                    = List.filter PyStr.truthy (map color (take 3 wardrobe))
                 /\ ColorMatcher.validation a
                    = ColorMatcher.validate_combination
                        (ColorMatcher.colors_used a)
        | FallbackWithAnchor | FallbackLastResort =>
            (wardrobe <> [] ->
             success r = true /\ validation r = None
             /\ color_analysis r = Some ManualFallback)
            /\ (wardrobe = [] -> r = no_wardrobe)
        end)
  /\ (forall record_len outfit gender,
        let profile := PyStr.lower gender in
        let limit := ceiling_of profile in
        let missing := missing_names profile outfit in
        (outfit !! "accessories" = Some VNone ->
         GenderStyleRules.validate_outfit record_len outfit gender = None)
        /\ forall n,
             accessories_count record_len outfit n ->
             ((limit < n)%nat ->
              GenderStyleRules.validate_outfit record_len outfit gender
              = Some (GenderStyleRules.mkResult false (6 # 10)
                        [GenderStyleRules.TooManyAccessories n limit] missing))
             /\ ((n <= limit)%nat -> missing <> [] ->
                 GenderStyleRules.validate_outfit record_len outfit gender
                 = Some (GenderStyleRules.mkResult false (3 # 10)
                           [GenderStyleRules.MissingRequired missing] missing))
             /\ ((n <= limit)%nat -> missing = [] ->
                 GenderStyleRules.validate_outfit record_len outfit gender
                 = Some (GenderStyleRules.mkResult true 1 [] []))).
Proof.
  split.
  - destruct (generate_outfit_paths env context w)
      as (anchor_item & allow_repeats & w1 & Hsel & _ & _ & Hgen).
    cbv zeta in Hgen. cbv zeta.
    set (context' := with_weather context (weather_now env context)) in *.
    change (wardrobe_items context') with (wardrobe_items context) in Hgen.
    assert (Hfb : forall a w0, exists r w',
      _generate_fallback_outfit context' a w0 = (inr r, w')
      /\ (wardrobe_items context <> [] ->
          success r = true /\ validation r = None
          /\ color_analysis r = Some ManualFallback)
      /\ (wardrobe_items context = [] -> r = no_wardrobe)).
    { intros a w0. destruct (fallback_returns context' a w0)
        as (r & w' & Hrun & _ & _ & Hshape & Hempty).
      exists r, w'. split; [exact Hrun|]. split; [|exact Hempty].
      intros Hne. destruct (Hshape Hne) as (Hs & Hv & Hc & _). auto. }
    destruct (path_of env (wardrobe_items context) _)
      as [| |data resolved] eqn:Hpath.
    + destruct (Hfb anchor_item (called w1)) as (r & w' & Hrun & Hr).
      exists anchor_item, allow_repeats, w1, r, w'.
      split; [exact Hsel|]. split; [congruence|]. rewrite Hpath. exact Hr.
    + destruct (Hfb None (called w1)) as (r & w' & Hrun & Hr).
      exists anchor_item, allow_repeats, w1, r, w'.
      split; [exact Hsel|]. split; [congruence|]. rewrite Hpath. exact Hr.
    + eexists anchor_item, allow_repeats, w1, _, _.
      split; [exact Hsel|]. split; [exact Hgen|]. rewrite Hpath.
      split; [reflexivity|]. split; [reflexivity|]. split; [reflexivity|].
      eexists. split; [reflexivity|]. split; reflexivity.
  - intros record_len outfit gender profile limit missing.
    assert (Hrule :
      GenderStyleRules.accessory_limits (GenderStyleRules.rule_of gender)
      = limit
      /\ flat_map (GenderStyleRules.missing_for outfit)
           (GenderStyleRules.required_categories
              (GenderStyleRules.rule_of gender)) = missing).
    { rewrite rule_of_profile. fold profile. cbv zeta.
      unfold limit, missing, ceiling_of, missing_names.
      destruct (String.eqb_spec profile "male") as [->|_];
        [|destruct (String.eqb profile "female")];
        (split; [reflexivity|]);
        cbn [GenderStyleRules.required_categories flat_map
             GenderStyleRules.missing_for String.eqb Ascii.eqb Bool.eqb
             app];
        destruct (get_truthy outfit "top"), (get_truthy outfit "bottom"),
                 (get_truthy outfit "shoes");
        try destruct (get_truthy outfit "dress"); reflexivity. }
    destruct Hrule as [Hlimit Hmissing].
    unfold GenderStyleRules.validate_outfit. cbv zeta.
    rewrite Hlimit, Hmissing. split.
    + intros Hnone. unfold GenderStyleRules.accessories_len.
      rewrite Hnone. reflexivity.
    + intros n Hcount. rewrite (accessories_count_len _ _ _ Hcount).
      destruct (Nat.ltb_spec limit n) as [Hover|Hwithin].
      * split; [reflexivity|]. split; intros; lia.
      * split; [intros; lia|].
        destruct missing as [|m0 ms]; split; intros; congruence.
Qed.

(** *** The claims on concrete requests *)

(** C2 as stated fails: the jacket is referenced by a worn-today outfit,
    in its outerwear entry, so by the words of the claim no item is
    eligible; the filter collects no id, keeps the jacket eligible and
    anchors on it without allowing repeats. *)
Lemma outerwear_worn_stays_eligible :
  SpecWords.referenced_ids (worn_today Fixtures.jacket_worn) = {[ 5%Z ]}
  /\ SpecWords.eligible (wardrobe_items Fixtures.jacket_worn)
                        (worn_today Fixtures.jacket_worn) = []
  /\ worn_ids (worn_today Fixtures.jacket_worn) = ∅
  /\ valid_items Fixtures.jacket_worn = [Fixtures.jacket]
  /\ fst (select_anchor Fixtures.jacket_worn Fixtures.world0)
     = inr (Some Fixtures.jacket, false).
Proof. vm_compute. repeat split; reflexivity. Qed.

(** C3 as stated fails: with a wardrobe of one pair of sneakers and the
    service out of quota, the request succeeds with an outfit that has
    the shoes and nothing else. *)
Lemma sneakers_only_outfit :
  exists r w',
    generate_outfit Fixtures.env_quota
                    (Fixtures.wardrobe_of [Fixtures.sneakers]) Fixtures.world0
    = (inr r, w')
    /\ success r = true
    /\ outfit r = {[ "shoes" := VItem Fixtures.sneakers ]}
    /\ outfit r !! "top" = None.
Proof. eexists _, _. vm_compute. repeat split; reflexivity. Qed.

(** C4 as stated fails: a jacket belongs to the outerwear vocabulary, and
    the outfit assembled around a jacket anchor has no outerwear entry. *)
Lemma jacket_anchor_not_placed :
  exists r w',
    _generate_fallback_outfit
      (Fixtures.wardrobe_of [Fixtures.jacket; Fixtures.shirt])
      (Some Fixtures.jacket) Fixtures.world0
    = (inr r, w')
    /\ in_vocab (garment_type Fixtures.jacket) outerwear_vocab = true
    /\ outfit r !! "outerwear" = None
    /\ outfit r = {[ "top" := VItem Fixtures.shirt ]}.
Proof. eexists _, _. vm_compute. repeat split; reflexivity. Qed.

(** The hypothesis of C4 holds of a wardrobe with a shirt, and the shirt
    anchor is in the top slot. *)
Lemma anchor_is_placed_witness :
  exists r w',
    _generate_fallback_outfit (Fixtures.wardrobe_of [Fixtures.shirt])
                              (Some Fixtures.shirt) Fixtures.world0
    = (inr r, w')
    /\ outfit r !! "top" = Some (VItem Fixtures.shirt).
Proof.
  destruct (anchor_is_placed (Fixtures.wardrobe_of [Fixtures.shirt])
                             Fixtures.shirt Fixtures.world0)
    as (r & w' & Hrun & _ & Htop & _); [discriminate|].
  exists r, w'. split; [exact Hrun|]. apply Htop. reflexivity.
Defined.


(** C9 as stated fails.  On the AI path, an outfit of shoes alone for the
    male profile is attached the constant validation (valid, 0.8) where
    the structural validator finds top and bottom missing (0.3), and the
    colors analysed are those of the first three wardrobe items, not the
    one of the selected sneakers.  On the fallback path no structural
    validation is attached and no color check is run. *)
Lemma validation_not_run :
  (exists r w',
      generate_outfit Fixtures.env_shoes_only
        (Fixtures.wardrobe_of [Fixtures.shirt; Fixtures.pants; Fixtures.sneakers])
        Fixtures.world0
      = (inr r, w')
      /\ outfit r = {[ "shoes" := VItem Fixtures.sneakers ]}
      /\ validation r = Some (mkValidation true (8 # 10) [])
      /\ GenderStyleRules.validate_outfit Fixtures.record_len (outfit r) "male"
         = Some (GenderStyleRules.mkResult false (3 # 10)
                   [GenderStyleRules.MissingRequired ["top"; "bottom"]]
                   ["top"; "bottom"])
      /\ (exists a, color_analysis r = Some (Analysed a)
                    /\ ColorMatcher.colors_used a = ["red"; "orange"; "white"]))
  /\ (exists r w',
        generate_outfit Fixtures.env_quota
          (Fixtures.wardrobe_of [Fixtures.shirt; Fixtures.pants; Fixtures.sneakers])
          Fixtures.world0
        = (inr r, w')
        /\ success r = true
        /\ validation r = None
        /\ color_analysis r = Some ManualFallback).
Proof.
  split.
  - eexists _, _. vm_compute. repeat split; try reflexivity.
    eexists. split; reflexivity.
  - eexists _, _. vm_compute. repeat split; reflexivity.
Qed.

(** A "heels" anchor is in the shoes bucket but not in the vocabulary the
    anchor step tests: with both heels and boots in the wardrobe the shoes
    slot may go to the boots. *)
Example heels_anchor_not_placed :
  let heels := mkItem 9 "heels" "red" in
  let boots := mkItem 10 "boots" "black" in
  in_vocab (garment_type heels) shoes_vocab = true
  /\ exists r w',
       _generate_fallback_outfit (Fixtures.wardrobe_of [heels; boots])
         (Some heels) (mkWorld (fun _ => 1%nat) 0 0)
       = (inr r, w')
       /\ outfit r = {[ "shoes" := VItem boots ]}.
Proof. split; [reflexivity|]. eexists _, _. vm_compute. split; reflexivity. Qed.

(** The id pattern has no word boundary: it reads "id 2" in "plaid 2-tone",
    and record 7, named further on, is not found. *)
Example search_id_inside_word :
  search_id (PyStr.lower "Plaid 2-tone shirt (Item #7)") = Some "2"
  /\ resolve_description (JText "Plaid 2-tone shirt (Item #7)")
                         [Fixtures.green_pants]
     = inr (VStr "Plaid 2-tone shirt (Item #7)").
Proof. vm_compute. split; reflexivity. Qed.

(** "navy pants" resolves, by color and type, to the navy blue pants. *)
Example navy_pants :
  no_hit (PyStr.lower "navy pants")
  /\ resolve_description (JText "navy pants")
       [mkItem 3 "shirt" "blue"; mkItem 7 "pants" "navy blue"]
     = inr (VItem (mkItem 7 "pants" "navy blue")).
Proof.
  split; [apply search_id_none; vm_compute; reflexivity|].
  vm_compute. reflexivity.
Qed.

(** A list of accessories is read through its text and, when no record
    matches, passed through as the list. *)
Example accessories_pass_through :
  _resolve_item_images
    {[ "accessories" := JList ["watch"; "belt"] "['watch', 'belt']" ]}
    [Fixtures.shirt; Fixtures.pants]
  = inr {[ "accessories" := VList ["watch"; "belt"] ]}.
Proof. vm_compute. reflexivity. Qed.

(** A number of 4301 digits is beyond what [int] accepts: the resolver
    raises, and the request ends in the last-resort fallback. *)
Example long_number_raises :
  _resolve_item_images {[ "top" := JText ("item " ++ Fixtures.ones 4301) ]}
                       [Fixtures.shirt]
  = inl ValueError.
Proof. vm_compute. reflexivity. Qed.

(** An accessories entry resolved to a record counts the keys of the
    record: with sixteen keys it is over every ceiling. *)
Example record_as_accessories :
  GenderStyleRules.validate_outfit Fixtures.record_len
    {[ "accessories" := VItem Fixtures.shirt ]} "female"
  = Some (GenderStyleRules.mkResult false (6 # 10)
            [GenderStyleRules.TooManyAccessories 16 5]
            ["top or dress"; "bottom (unless wearing dress)"; "shoes"]).
Proof. vm_compute. reflexivity. Qed.

End Planner.
